(** * rod-utils: retry / timeout orchestration over a browser driver

    A shallow embedding of the Go package [rodutils]
    (page.go: [DefaultRodOptions], [SafeClick], [SafeElement];
     the wrapper file, src/unnamed/part_000: [RodOperationWrapper], [timeLimit]).

    The browser driver (go-rod), the operating system and the clock are
    outside the package.  They are an interface here ([Runtime]): each call
    takes the state of the outside world and returns the new one with the
    call's result.  Every call the package makes is also written to a
    trace, so that attempts, waits, sleeps and file writes can be counted. *)

From Stdlib Require Import ZArith String List Bool Lia.
Import ListNotations.
Local Open Scope string_scope.
Local Open Scope Z_scope.

(** ** Go values *)

(** Go's [int] and [time.Duration] are 64-bit signed integers. *)
Module Int64.
Definition modulus : Z := 2 ^ 64.
Definition max_int : Z := 2 ^ 63 - 1.
Definition min_int : Z := - 2 ^ 63.

Definition in_range (z : Z) : Prop := min_int <= z <= max_int.

(** Two's complement wrap-around of an arithmetic result. *)
Definition wrap (z : Z) : Z := (z + 2 ^ 63) mod modulus - 2 ^ 63.

Definition add (a b : Z) : Z := wrap (a + b).
Definition mul (a b : Z) : Z := wrap (a * b).

End Int64.

(** package time: durations count nanoseconds. *)
Module Time.
Definition Duration := Z.
Definition Nanosecond : Duration := 1.
Definition Microsecond : Duration := 1000 * Nanosecond.
Definition Millisecond : Duration := 1000 * Microsecond.
Definition Second : Duration := 1000 * Millisecond.
End Time.

(** A Go [error] value that is not nil.  [ErrNew m] is [errors.New(m)] or a
    [fmt.Errorf] whose format has no [%w]; [ErrWrap p c] is
    [fmt.Errorf(p + ": %w", c)], which keeps [c] for [errors.Unwrap].
    The interface value [error] itself, which may be nil, is
    [option error]. *)
#[local] Unset Elimination Schemes.
Inductive error : Type :=
| ErrNew (msg : string)
| ErrWrap (prefix : string) (cause : option error).
#[local] Set Elimination Schemes.

(** [err.Error()].  A nil operand of [%w] prints as [%!w(<nil>)]. *)
Fixpoint Error (e : error) : string :=
  match e with
  | ErrNew m => m
  | ErrWrap p c =>
      p ++ ": " ++ match c with
                   | Some e' => Error e'
                   | None => "%!w(<nil>)"
                   end
  end.

Fixpoint error_eqb (a b : error) : bool :=
  match a, b with
  | ErrNew m, ErrNew n => String.eqb m n
  | ErrWrap p c, ErrWrap q d =>
      String.eqb p q &&
      match c, d with
      | Some x, Some y => error_eqb x y
      | None, None => true
      | _, _ => false
      end
  | _, _ => false
  end.

(** [errors.Is(e, target)]: [target] is [e] or is on its [Unwrap] chain. *)
Fixpoint errors_Is (e target : error) : bool :=
  error_eqb e target ||
  match e with
  | ErrWrap _ (Some c) => errors_Is c target
  | _ => false
  end.

(** Handles of the driver.  A [*rod.Page] or [*rod.Element] may be nil. *)
Definition PageHandle := nat.
Definition Element := nat.
Definition Page := option PageHandle.
Definition Bytes := list nat.

(** ** page.go: the policy *)

Record RodOptions : Type := mkRodOptions {
  Timeout : Time.Duration;        (* Overall timeout *)
  StableDuration : Time.Duration; (* Time the element needs to be stable *)
  RetryCount : Z;                 (* Number of retries *)
  RetryDelay : Time.Duration;     (* Wait time between retries *)
  MustVisible : bool;             (* Whether the element needs to be visible *)
  MustStable : bool;              (* Whether the element needs to be stable *)
  MustWaitLoad : bool             (* Whether the page load needs to be complete *)
}.

Definition DefaultRodOptions : RodOptions :=
  {| Timeout := 10 * Time.Second;
     StableDuration := 200 * Time.Millisecond;
     RetryCount := 3;
     RetryDelay := 500 * Time.Millisecond;
     MustVisible := true;
     MustWaitLoad := true;
     MustStable := true |}.

(** ** The world outside the package *)

(** What the package asks of the driver, the clock and the file system. *)
Inductive Event : Type :=
| EvSleep (d : Time.Duration)                       (* time.Sleep(d) *)
| EvElement (p : PageHandle) (selector : string) (timeout : Time.Duration)
                                                    (* p.Context(ctx).Element(selector) *)
| EvWaitVisible (el : Element)                      (* el.WaitVisible() *)
| EvWaitStable (el : Element) (d : Time.Duration)   (* el.WaitStable(d) *)
| EvClick (el : Element)                            (* el.Click(left, 1) *)
| EvTimeLimit (limit : Time.Duration)               (* timeLimit(limit, f) *)
| EvMkdirAll (dir : string)                         (* os.MkdirAll(dir, 0755) *)
| EvScreenshot (p : PageHandle)                     (* p.Screenshot(true, PNG) *)
| EvWriteFile (name : string) (data : Bytes).       (* os.WriteFile(name, data, 0644) *)

(** One run of a caller-supplied [func() error]: when it returns (measured
    from its start, [None] when it blocks forever), what it returns, and the
    world it leaves. *)
Record OpRun (W : Type) : Type := mkOpRun {
  op_elapsed : option Time.Duration;
  op_result : option error;
  op_world : W
}.
Arguments mkOpRun {W}.
Arguments op_elapsed {W}.
Arguments op_result {W}.
Arguments op_world {W}.

Definition Operation (W : Type) : Type := W -> OpRun W.

(** The calls that leave the package.  [W] is the state of the world. *)
Class Runtime (W : Type) : Type := {
  rt_Sleep : Time.Duration -> W -> W;
  rt_Element : PageHandle -> string -> Time.Duration -> W -> (Element + error) * W;
  rt_WaitVisible : Element -> W -> option error * W;
  rt_WaitStable : Element -> Time.Duration -> W -> option error * W;
  rt_Click : Element -> W -> option error * W;
  rt_Screenshot : PageHandle -> W -> (Bytes + error) * W;
  rt_MkdirAll : string -> W -> option error * W;
  rt_WriteFile : string -> Bytes -> W -> option error * W;
  (* time.Now().Format("2006-01-02_15-04-05") *)
  rt_Now : W -> string;
  (* filepath.Dir *)
  rt_Dir : string -> string;
  (* which ready case a [select] takes when both are ready *)
  rt_select_first : W -> bool
}.

Record State (W : Type) : Type := mkState {
  world : W;
  trace : list Event
}.
Arguments mkState {W}.
Arguments world {W}.
Arguments trace {W}.

(** How a call of the package ends: it returns, it panics (a nil pointer is
    dereferenced), or the model's loop budget is used up. *)
Inductive Res (W A : Type) : Type :=
| Done (a : A) (s : State W)
| Panic (s : State W)
| OutOfFuel (s : State W).
Arguments Done {W A}.
Arguments Panic {W A}.
Arguments OutOfFuel {W A}.

Definition M (W A : Type) : Type := State W -> Res W A.

Definition ret {W A} (a : A) : M W A := fun s => Done a s.

Definition bind {W A B} (m : M W A) (k : A -> M W B) : M W B :=
  fun s =>
    match m s with
    | Done a s' => k a s'
    | Panic s' => Panic s'
    | OutOfFuel s' => OutOfFuel s'
    end.

Definition panic {W A} : M W A := fun s => Panic s.

Definition final_state {W A} (r : Res W A) : State W :=
  match r with
  | Done _ s => s
  | Panic s => s
  | OutOfFuel s => s
  end.

Declare Scope go_scope.
Delimit Scope go_scope with go.
Notation "x <- m ;; k" := (bind m (fun x => k))
  (at level 100, m at next level, right associativity) : go_scope.
Notation "m ;; k" := (bind m (fun _ => k))
  (at level 100, right associativity) : go_scope.
Local Open Scope go_scope.

(** ** The package *)

Section Package.
Context {W : Type} {RT : Runtime W}.

(** Constants of the package that are declared outside page.go and the wrapper file. *)
Variable DefaultScreenshotPath : string.
Variable DefaultTimeoutDuration : Time.Duration.

(** *** Calls that leave the package, each one traced *)

Definition log (ev : Event) (w' : W) (s : State W) : State W :=
  {| world := w'; trace := trace s ++ [ev] |}.

Definition Sleep (d : Time.Duration) : M W unit :=
  fun s => Done tt (log (EvSleep d) (rt_Sleep d (world s)) s).

(** [page.Context(ctx).Element(selector)], [ctx] carrying [timeout].
    [Page.Context] copies its receiver, so a nil page is a nil pointer
    dereference. *)
Definition page_Element (page : Page) (selector : string)
    (timeout : Time.Duration) : M W (Element + error) :=
  match page with
  | None => panic
  | Some p =>
      fun s =>
        let (r, w') := rt_Element p selector timeout (world s) in
        Done r (log (EvElement p selector timeout) w' s)
  end.

Definition WaitVisible (el : Element) : M W (option error) :=
  fun s =>
    let (r, w') := rt_WaitVisible el (world s) in
    Done r (log (EvWaitVisible el) w' s).

Definition WaitStable (el : Element) (d : Time.Duration) : M W (option error) :=
  fun s =>
    let (r, w') := rt_WaitStable el d (world s) in
    Done r (log (EvWaitStable el d) w' s).

Definition Click (el : Element) : M W (option error) :=
  fun s =>
    let (r, w') := rt_Click el (world s) in
    Done r (log (EvClick el) w' s).

(** [page.Screenshot(true, &proto.PageCaptureScreenshot{Format: png})]. *)
Definition page_Screenshot (page : Page) : M W (Bytes + error) :=
  match page with
  | None => panic
  | Some p =>
      fun s =>
        let (r, w') := rt_Screenshot p (world s) in
        Done r (log (EvScreenshot p) w' s)
  end.

Definition MkdirAll (dir : string) : M W (option error) :=
  fun s =>
    let (r, w') := rt_MkdirAll dir (world s) in
    Done r (log (EvMkdirAll dir) w' s).

Definition WriteFile (name : string) (data : Bytes) : M W (option error) :=
  fun s =>
    let (r, w') := rt_WriteFile name data (world s) in
    Done r (log (EvWriteFile name data) w' s).

Definition Now_Format : M W string :=
  fun s => Done (rt_Now (world s)) s.

(** *** page.go: the retry loop *)

(** How one pass through a loop body ends: [continue] (or falling off the
    end of the body) with the current [lastErr], or [return]. *)
Inductive Ctl (A : Type) : Type :=
| Continue (lastErr : option error)
| Return (r : A).
Arguments Continue {A}.
Arguments Return {A}.

(** [for i := 0; i <= retryCount; i++ { body }; return exhausted(lastErr)]
    entered at [i] with [lastErr].  [i++] wraps around as Go's [int]
    does. *)
Fixpoint retry_loop {A : Type} (fuel : nat) (retryCount : Z)
    (body : Z -> option error -> M W (Ctl A))
    (exhausted : option error -> A)
    (i : Z) (lastErr : option error) : M W A :=
  match fuel with
  | O => fun s => OutOfFuel s
  | S fuel' =>
      if i <=? retryCount then
        c <- body i lastErr ;;
        match c with
        | Return r => ret r
        | Continue lastErr' =>
            retry_loop fuel' retryCount body exhausted (Int64.add i 1) lastErr'
        end
      else ret (exhausted lastErr)
  end.

Definition or_default (opts : option RodOptions) : RodOptions :=
  match opts with
  | None => DefaultRodOptions
  | Some o => o
  end.

(** Body of the loop of [SafeClick] (page.go, lines 140-179).  The
    [defer cancel()] of each pass runs when [SafeClick] returns and calls
    nothing outside. *)
Definition SafeClick_body (page : Page) (selector : string) (opts : RodOptions)
    (i : Z) (lastErr : option error) : M W (Ctl (option error)) :=
  (if 0 <? i then Sleep (RetryDelay opts) else ret tt) ;;
  r <- page_Element page selector (Timeout opts) ;;
  match r with
  | inr err => ret (Continue (Some (ErrWrap "element not found" (Some err))))
  | inl el =>
      e <- WaitStable el (StableDuration opts) ;;
      match e with
      | Some err => ret (Continue (Some (ErrWrap "element not stable" (Some err))))
      | None =>
          e <- Click el ;;
          match e with
          | Some err => ret (Continue (Some (ErrWrap "click failed" (Some err))))
          | None =>
              match lastErr with
              | None => ret (Return None)
              | Some _ => ret (Continue lastErr)
              end
          end
      end
  end.

Definition SafeClick (fuel : nat) (page : Page) (selector : string)
    (opts : option RodOptions) : M W (option error) :=
  let opts := or_default opts in
  retry_loop fuel (RetryCount opts) (SafeClick_body page selector opts)
    (fun lastErr => Some (ErrWrap "all click attempts failed" lastErr))
    0 None.

(** Body of the loop of [SafeElement] (page.go, lines 197-233). *)
Definition SafeElement_body (p : Page) (selector : string) (opts : RodOptions)
    (i : Z) (lastErr : option error)
    : M W (Ctl (option Element * option error)) :=
  (if 0 <? i then Sleep (RetryDelay opts) else ret tt) ;;
  r <- page_Element p selector (Timeout opts) ;;
  match r with
  | inr err => ret (Continue (Some (ErrWrap "element not found" (Some err))))
  | inl el =>
      v <- (if MustVisible opts then WaitVisible el else ret None) ;;
      match v with
      | Some err => ret (Continue (Some (ErrWrap "element not visible" (Some err))))
      | None =>
          st <- (if MustStable opts then WaitStable el (StableDuration opts)
                 else ret None) ;;
          match st with
          | Some err =>
              ret (Continue (Some (ErrWrap "element not stable" (Some err))))
          | None => ret (Return (Some el, lastErr))
          end
      end
  end.

Definition SafeElement (fuel : nat) (p : Page) (selector : string)
    (opts : option RodOptions) : M W (option Element * option error) :=
  match p with
  | None => ret (None, Some (ErrNew "rod.Page is nil"))
  | Some _ =>
      let opts := or_default opts in
      retry_loop fuel (RetryCount opts) (SafeElement_body p selector opts)
        (fun lastErr =>
           (None, Some (ErrWrap "all attempts to get element failed" lastErr)))
        0 None
  end.

(** *** The wrapper file: the bounded runner and the operation wrapper *)

(** [ctx.Err()] once the deadline has passed is
    [context.DeadlineExceeded]. *)
Definition DeadlineExceeded : string := "context deadline exceeded".

Definition timeout_error : error :=
  ErrNew ("operation timed out: " ++ DeadlineExceeded).

(** [timeLimit] (part_000, lines 320-341).  The goroutine runs [f] and
    sends on [errorChan] only when [f] returns an error that is not nil;
    when [f] returns nil, or never returns, nothing is ever sent.  The
    [select] takes the channel when the send comes before the deadline,
    [ctx.Done()] when the deadline comes first, and either when both are
    ready.  A deadline that is not positive has passed when the context
    is made.  Work that is abandoned is not cancelled: the world after
    the call is the one [f] leaves. *)
Definition timeLimit (timeout : Time.Duration) (f : Operation W)
    : M W (option error) :=
  fun s =>
    let run := f (world s) in
    let s' := log (EvTimeLimit timeout) (op_world run) s in
    let deadline := Z.max 0 timeout in
    match op_elapsed run, op_result run with
    | Some d, Some err =>
        if d <? deadline then Done (Some err) s'
        else if d =? deadline then
          (if rt_select_first (world s) then Done (Some err) s'
           else Done (Some timeout_error) s')
        else Done (Some timeout_error) s'
    | _, _ => Done (Some timeout_error) s'
    end.

(** RodOperationWrapperOptions: every field is a pointer. *)
Record RodOperationWrapperOptions : Type := mkWrapperOptions {
  TimeoutDuration : option Time.Duration;
  Path : option string;
  Name : option string
}.

(** [RodOperationWrapper] (part_000, lines 270-316). *)
Definition RodOperationWrapper (page : Page) (operation : Operation W)
    (opts : option RodOperationWrapperOptions) : M W (option error) :=
  let timeout := match opts with Some o => TimeoutDuration o | None => None end in
  let path := match opts with Some o => Path o | None => None end in
  let name := match opts with Some o => Name o | None => None end in
  let path := match path with None => DefaultScreenshotPath | Some p => p end in
  timestamp <- Now_Format ;;
  let name := match name with
              | None => timestamp
              | Some n => n ++ "_" ++ timestamp
              end in
  let timeout := match timeout with
                 | None => DefaultTimeoutDuration
                 | Some t => t
                 end in
  let limit := Int64.mul timeout Time.Second in
  err <- timeLimit limit (fun w => operation w) ;;
  match err with
  | Some _ =>
      let screenshotName := path ++ "/" ++ name ++ ".png" in
      let dir := rt_Dir screenshotName in
      me <- MkdirAll dir ;;
      match me with
      | Some mkErr =>
          ret (Some (ErrWrap "failed to create screenshot directory" (Some mkErr)))
      | None =>
          sr <- page_Screenshot page ;;
          match sr with
          | inr screenErr =>
              ret (Some (ErrWrap "failed to capture screenshot" (Some screenErr)))
          | inl screenshotData =>
              fe <- WriteFile screenshotName screenshotData ;;
              match fe with
              | Some fileErr =>
                  ret (Some (ErrNew ("failed to save screenshot: " ++ Error fileErr)))
              | None => ret err
              end
          end
      end
  | None => ret err
  end.


(** The timeout, directory and file name that a call works with. *)
Definition configured_timeout (wopts : option RodOperationWrapperOptions)
    : Time.Duration :=
  match wopts with
  | Some o => match TimeoutDuration o with
              | Some t => t
              | None => DefaultTimeoutDuration
              end
  | None => DefaultTimeoutDuration
  end.

Definition screenshot_dir (wopts : option RodOperationWrapperOptions) : string :=
  match wopts with
  | Some o => match Path o with
              | Some p => p
              | None => DefaultScreenshotPath
              end
  | None => DefaultScreenshotPath
  end.

(** [<dir>/<name>_<timestamp>.png], or [<dir>/<timestamp>.png] when no
    name is supplied. *)
Definition screenshot_file (wopts : option RodOperationWrapperOptions)
    (timestamp : string) : string :=
  match wopts with
  | Some {| Name := Some n |} =>
      screenshot_dir wopts ++ "/" ++ n ++ "_" ++ timestamp ++ ".png"
  | _ => screenshot_dir wopts ++ "/" ++ timestamp ++ ".png"
  end.

(** The steps of [RodOperationWrapper] after a failed run (part_000, lines
    301-315). *)
Definition save_screenshot (page : Page) (file : string) (err : option error)
    : M W (option error) :=
  me <- MkdirAll (rt_Dir file) ;;
  match me with
  | Some mkErr =>
      ret (Some (ErrWrap "failed to create screenshot directory" (Some mkErr)))
  | None =>
      sr <- page_Screenshot page ;;
      match sr with
      | inr screenErr =>
          ret (Some (ErrWrap "failed to capture screenshot" (Some screenErr)))
      | inl screenshotData =>
          fe <- WriteFile file screenshotData ;;
          match fe with
          | Some fileErr =>
              ret (Some (ErrNew ("failed to save screenshot: " ++ Error fileErr)))
          | None => ret err
          end
      end
  end.

End Package.

Arguments Continue {A}.
Arguments Return {A}.

(** ** A scripted world

    A world in which every outside call answers from a script, one answer
    per call, in order.  It gives the concrete runs below. *)
Module Script.

Record World : Type := mkWorld {
  locates : list (Element + error);
  visibles : list (option error);
  stables : list (option error);
  clicks : list (option error);
  mkdirs : list (option error);
  screenshots : list (Bytes + error);
  writes : list (option error);
  stamp : string;
  first_ready : bool
}.

(** The next answer of a script; [dflt] once the script is used up. *)
Definition next {A : Type} (dflt : A) (l : list A) : A * list A :=
  match l with
  | [] => (dflt, [])
  | a :: l' => (a, l')
  end.

Definition png_magic : Bytes := [137; 80; 78; 71]%nat.

Fixpoint before_last_slash (s : string) : option string :=
  match s with
  | EmptyString => None
  | String c rest =>
      match before_last_slash rest with
      | Some p => Some (String c p)
      | None => if Ascii.eqb c (Ascii.ascii_of_nat 47) then Some EmptyString else None
      end
  end.

(** [filepath.Dir] on a path that is already clean. *)
Definition Dir (s : string) : string :=
  match before_last_slash s with
  | Some EmptyString => "/"
  | Some p => p
  | None => "."
  end.

#[global] Instance runtime : Runtime World := {
  rt_Sleep := fun _ w => w;
  rt_Element := fun _ _ _ w =>
    let (r, l) := next (inr (ErrNew "context deadline exceeded")) (locates w) in
    (r, mkWorld l (visibles w) (stables w) (clicks w) (mkdirs w)
          (screenshots w) (writes w) (stamp w) (first_ready w));
  rt_WaitVisible := fun _ w =>
    let (r, l) := next None (visibles w) in
    (r, mkWorld (locates w) l (stables w) (clicks w) (mkdirs w)
          (screenshots w) (writes w) (stamp w) (first_ready w));
  rt_WaitStable := fun _ _ w =>
    let (r, l) := next None (stables w) in
    (r, mkWorld (locates w) (visibles w) l (clicks w) (mkdirs w)
          (screenshots w) (writes w) (stamp w) (first_ready w));
  rt_Click := fun _ w =>
    let (r, l) := next None (clicks w) in
    (r, mkWorld (locates w) (visibles w) (stables w) l (mkdirs w)
          (screenshots w) (writes w) (stamp w) (first_ready w));
  rt_Screenshot := fun _ w =>
    let (r, l) := next (inl png_magic) (screenshots w) in
    (r, mkWorld (locates w) (visibles w) (stables w) (clicks w) (mkdirs w)
          l (writes w) (stamp w) (first_ready w));
  rt_MkdirAll := fun _ w =>
    let (r, l) := next None (mkdirs w) in
    (r, mkWorld (locates w) (visibles w) (stables w) (clicks w) l
          (screenshots w) (writes w) (stamp w) (first_ready w));
  rt_WriteFile := fun _ _ w =>
    let (r, l) := next None (writes w) in
    (r, mkWorld (locates w) (visibles w) (stables w) (clicks w) (mkdirs w)
          (screenshots w) l (stamp w) (first_ready w));
  rt_Now := stamp;
  rt_Dir := Dir;
  rt_select_first := first_ready
}.

(** A world whose locate answers are [ls]; every other call succeeds. *)
Definition locating (ls : list (Element + error)) : World :=
  mkWorld ls [] [] [] [] [] [] "2024-05-01_12-00-00" true.

Definition start (w : World) : State World := {| world := w; trace := [] |}.

(** An operation that returns [r] after [d] nanoseconds, [None] for one
    that blocks forever, and touches nothing. *)
Definition op (d : option Time.Duration) (r : option error) : Operation World :=
  fun w => mkOpRun d r w.

End Script.

(** A world without the element: every locate runs into its deadline. *)
Module Absent.
Definition not_there : error := ErrNew "context deadline exceeded".

#[global] Instance runtime : Runtime unit := {
  rt_Sleep := fun _ w => w;
  rt_Element := fun _ _ _ w => (inr not_there, w);
  rt_WaitVisible := fun _ w => (None, w);
  rt_WaitStable := fun _ _ w => (None, w);
  rt_Click := fun _ w => (None, w);
  rt_Screenshot := fun _ w => (inl Script.png_magic, w);
  rt_MkdirAll := fun _ w => (None, w);
  rt_WriteFile := fun _ _ w => (None, w);
  rt_Now := fun _ => "2024-05-01_12-00-00";
  rt_Dir := Script.Dir;
  rt_select_first := fun _ => true
}.

Definition start : State unit := {| world := tt; trace := [] |}.
End Absent.

(** A world in which the screenshot directory cannot be made. *)
Definition read_only : Script.World :=
  Script.mkWorld [] [] [] [] [Some (ErrNew "mkdir shots: permission denied")]
    [] [] "2024-05-01_12-00-00" true.

Definition boom : error := ErrNew "boom".

(** ** Reading a trace *)

Definition is_locate (ev : Event) : bool :=
  match ev with EvElement _ _ _ => true | _ => false end.
Definition is_sleep (ev : Event) : bool :=
  match ev with EvSleep _ => true | _ => false end.
Definition is_click (ev : Event) : bool :=
  match ev with EvClick _ => true | _ => false end.
Definition is_visible_wait (ev : Event) : bool :=
  match ev with EvWaitVisible _ => true | _ => false end.
Definition is_stable_wait (ev : Event) : bool :=
  match ev with EvWaitStable _ _ => true | _ => false end.
Definition is_wait (ev : Event) : bool :=
  is_visible_wait ev || is_stable_wait ev.

(** How many events of a trace satisfy [p]. *)
Definition count (p : Event -> bool) (t : list Event) : Z :=
  Z.of_nat (length (filter p t)).

(** Locate calls made so far: one per attempt. *)
Definition attempts (t : list Event) : Z := count is_locate t.

(** The new events of [s'] over [s] all satisfy [P]. *)
Definition extends_with {W : Type} (P : Event -> Prop) (s s' : State W) : Prop :=
  exists new, trace s' = (trace s ++ new)%list /\ Forall P new.

(** The state in which the locate of pass [i] is made: after the
    inter-attempt delay, which the first pass does not have. *)
Definition after_delay {W : Type} {RT : Runtime W} (opts : RodOptions)
    (i : Z) (s : State W) : State W :=
  if 0 <? i
  then log (EvSleep (RetryDelay opts)) (rt_Sleep (RetryDelay opts) (world s)) s
  else s.

(** A wait made by [SafeElement] is one that the policy asks for. *)
Definition wait_is_enabled (opts : RodOptions) (ev : Event) : Prop :=
  (is_visible_wait ev = true -> MustVisible opts = true) /\
  (is_stable_wait ev = true -> MustStable opts = true).

(** ** The pass-through helpers

    The remaining functions of page.go and the functions of the element
    file hand one request to the driver and put its error into words.
    They run in a session: the world, and the list of the driver calls
    made so far. *)

(** A [*rod.Element] that may be nil, and a handle that is not. *)
Definition ElementRef : Type := Element.
Definition ElementPtr : Type := option Element.

(** What [Has] answers.  The driver returns [(false, nil, nil)] when
    nothing matches, [(true, el, nil)] when [el] does, and an error with
    [false] otherwise. *)
Inductive HasAnswer : Type :=
| HasError (err : error)
| HasAbsent
| HasFound (el : ElementRef).

(** The driver calls of the helpers.  [F] stands for [float64]. *)
Inductive Call (F : Type) : Type :=
| CallNavigate (p : PageHandle) (url : string)            (* p.Navigate(url) *)
| CallPageElement (p : PageHandle) (selector : string)    (* p.Element(selector) *)
| CallPageHas (p : PageHandle) (selector : string)        (* p.Has(selector) *)
| CallPageElements (p : PageHandle) (selector : string)   (* p.Elements(selector) *)
| CallScroll (p : PageHandle) (x y : F) (steps : Z)       (* p.Mouse.Scroll(x, y, steps) *)
| CallEval (p : PageHandle) (js : string)                 (* p.Eval(js) *)
| CallHas (e : ElementRef) (selector : string)            (* e.Has(selector) *)
| CallElements (e : ElementRef) (selector : string)       (* e.Elements(selector) *)
| CallText (e : ElementRef)                               (* e.Text() *)
| CallWaitVisible (e : ElementRef)                        (* e.WaitVisible() *)
| CallWaitStable (e : ElementRef) (d : Time.Duration)     (* e.WaitStable(d) *)
| CallWaitEnabled (e : ElementRef)                        (* e.WaitEnabled() *)
| CallWaitWritable (e : ElementRef)                       (* e.WaitWritable() *)
| CallClick (e : ElementRef)                              (* e.Click(left, 1) *)
| CallInput (e : ElementRef) (txt : string)               (* e.Input(txt) *)
| CallAttribute (e : ElementRef) (name : string)          (* e.Attribute(name) *)
| CallWaitLoad (e : ElementRef).                          (* e.Page().WaitLoad() *)
Arguments CallNavigate {F}.
Arguments CallPageElement {F}.
Arguments CallPageHas {F}.
Arguments CallPageElements {F}.
Arguments CallScroll {F}.
Arguments CallEval {F}.
Arguments CallHas {F}.
Arguments CallElements {F}.
Arguments CallText {F}.
Arguments CallWaitVisible {F}.
Arguments CallWaitStable {F}.
Arguments CallWaitEnabled {F}.
Arguments CallWaitWritable {F}.
Arguments CallClick {F}.
Arguments CallInput {F}.
Arguments CallAttribute {F}.
Arguments CallWaitLoad {F}.

(** The driver calls that only the helpers make.  [WaitVisible],
    [WaitStable] and [Click] are those of [Runtime]. *)
Class Driver (W F : Type) : Type := {
  (* the float64 constant 0 *)
  dv_zero : F;
  dv_Navigate : PageHandle -> string -> W -> option error * W;
  dv_PageElement : PageHandle -> string -> W -> (ElementRef + error) * W;
  dv_PageHas : PageHandle -> string -> W -> HasAnswer * W;
  dv_PageElements : PageHandle -> string -> W -> (list ElementRef + error) * W;
  dv_Scroll : PageHandle -> F -> F -> Z -> W -> option error * W;
  (* p.Eval(js), and on success the number r.Value.Num() *)
  dv_Eval : PageHandle -> string -> W -> (F + error) * W;
  dv_Has : ElementRef -> string -> W -> HasAnswer * W;
  dv_Elements : ElementRef -> string -> W -> (list ElementRef + error) * W;
  dv_Text : ElementRef -> W -> (string + error) * W;
  dv_WaitEnabled : ElementRef -> W -> option error * W;
  dv_WaitWritable : ElementRef -> W -> option error * W;
  dv_Input : ElementRef -> string -> W -> option error * W;
  (* the attribute's value is a *string: nil when the element has none *)
  dv_Attribute : ElementRef -> string -> W -> (option string + error) * W;
  dv_WaitLoad : ElementRef -> W -> option error * W
}.

Record Session (W F : Type) : Type := mkSession {
  sworld : W;
  calls : list (Call F)
}.
Arguments mkSession {W F}.
Arguments sworld {W F}.
Arguments calls {W F}.

(** The line break of the [%s\n%v] formats. *)
Definition nl : string := String (Ascii.ascii_of_nat 10) EmptyString.

(** [%v] of an [error] value: its text, [<nil>] when it is nil. *)
Definition fmt_v (e : option error) : string :=
  match e with
  | Some err => Error err
  | None => "<nil>"
  end.

(** [errors.Unwrap]. *)
Definition Unwrap (e : error) : option error :=
  match e with
  | ErrNew _ => None
  | ErrWrap _ c => c
  end.

(** The flags [ok] and [err] that the code reads off a [Has]. *)
Definition has_ok (a : HasAnswer) : bool :=
  match a with HasFound _ => true | _ => false end.
Definition has_err (a : HasAnswer) : option error :=
  match a with HasError e => Some e | _ => None end.
Definition has_elem (a : HasAnswer) : ElementPtr :=
  match a with HasFound el => Some el | _ => None end.

Section Helpers.
Context {W F : Type} {RT : Runtime W} {DV : Driver W F}.

(** A constant of the package that is declared outside the two files. *)
Variable DefaultStableDuration : Time.Duration.

(** One driver call, written to the session. *)
Definition call {A : Type} (c : Call F) (f : W -> A * W) (s : Session W F)
    : A * Session W F :=
  let (a, w') := f (sworld s) in
  (a, {| sworld := w'; calls := calls s ++ [c] |}).

(** *** page.go *)

(** [Navigate] (page.go, lines 15-24). *)
Definition Navigate (p : Page) (url : string) (s : Session W F)
    : (Page * option error) * Session W F :=
  match p with
  | None => ((None, Some (ErrNew "rod.Page is nil")), s)
  | Some ph =>
      let (err, s1) := call (CallNavigate ph url) (dv_Navigate ph url) s in
      match err with
      | Some e =>
          ((None, Some (ErrNew ("failed to navigate to page: " ++ url ++ nl ++ Error e))),
           s1)
      | None => ((p, None), s1)
      end
  end.

(** [PageElement] (page.go, lines 29-38). *)
Definition PageElement (p : Page) (selector : string) (s : Session W F)
    : (ElementPtr * option error) * Session W F :=
  match p with
  | None => ((None, Some (ErrNew "rod.Page is nil")), s)
  | Some ph =>
      let (r, s1) := call (CallPageElement ph selector) (dv_PageElement ph selector) s in
      match r with
      | inr err =>
          ((None, Some (ErrNew ("failed to get element: " ++ selector ++ nl ++ Error err))),
           s1)
      | inl elem => ((Some elem, None), s1)
      end
  end.

(** [PageElementVisible] (page.go, lines 43-60). *)
Definition PageElementVisible (p : Page) (selector : string) (s : Session W F)
    : (ElementPtr * option error) * Session W F :=
  match p with
  | None => ((None, Some (ErrNew "rod.Page is nil")), s)
  | Some ph =>
      let (a, s1) := call (CallPageHas ph selector) (dv_PageHas ph selector) s in
      if negb (has_ok a) || (match has_err a with Some _ => true | None => false end)
      then ((None, Some (ErrNew ("element not found: " ++ selector ++ nl
                                 ++ fmt_v (has_err a)))), s1)
      else
        let (r, s2) := call (CallPageElement ph selector) (dv_PageElement ph selector) s1 in
        match r with
        | inr err =>
            ((None, Some (ErrNew ("failed to get element: " ++ selector ++ nl
                                  ++ Error err))), s2)
        | inl elem =>
            let (v, s3) := call (CallWaitVisible elem) (rt_WaitVisible elem) s2 in
            match v with
            | Some err =>
                ((None, Some (ErrNew ("failed to wait for element to be visible: "
                                      ++ selector ++ nl ++ Error err))), s3)
            | None => ((Some elem, None), s3)
            end
        end
  end.

(** [PageElements] (page.go, lines 65-81). *)
Definition PageElements (p : Page) (selector : string) (s : Session W F)
    : (list ElementRef * option error) * Session W F :=
  match p with
  | None => (([], Some (ErrNew "rod.Page is nil")), s)
  | Some ph =>
      let (a, s1) := call (CallPageHas ph selector) (dv_PageHas ph selector) s in
      if negb (has_ok a) || (match has_err a with Some _ => true | None => false end)
      then (([], Some (ErrNew ("element not found: " ++ selector ++ nl
                               ++ fmt_v (has_err a)))), s1)
      else
        let (r, s2) := call (CallPageElements ph selector) (dv_PageElements ph selector) s1 in
        match r with
        | inr err =>
            (([], Some (ErrNew ("failed to get elements: " ++ selector ++ nl
                                ++ Error err))), s2)
        | inl elems =>
            if (length elems =? 0)%nat
            then (([], Some (ErrNew ("the number of acquired elements was 0: "
                                     ++ selector))), s2)
            else ((elems, None), s2)
        end
  end.

Definition scrollHeight_js : string := "() => document.body.scrollHeight".

(** [ScrollToBottom] (page.go, lines 85-107). *)
Definition ScrollToBottom (page : Page) (s : Session W F)
    : option error * Session W F :=
  match page with
  | None => (Some (ErrNew "rod.Page is nil"), s)
  | Some ph =>
      let (err, s1) :=
        call (CallScroll ph dv_zero dv_zero 0) (dv_Scroll ph dv_zero dv_zero 0) s in
      match err with
      | Some e => (Some (ErrNew ("failed to reset scroll position: " ++ Error e)), s1)
      | None =>
          let (r, s2) := call (CallEval ph scrollHeight_js) (dv_Eval ph scrollHeight_js) s1 in
          match r with
          | inr e => (Some e, s2)
          | inl lastHeight =>
              let (err2, s3) :=
                call (CallScroll ph dv_zero lastHeight 0)
                  (dv_Scroll ph dv_zero lastHeight 0) s2 in
              match err2 with
              | Some e => (Some e, s3)
              | None => (None, s3)
              end
          end
      end
  end.

End Helpers.

(** *** The element file (src/unnamed/part_000, lines 66-246) *)

Module El.
Section ElementHelpers.
Context {W F : Type} {RT : Runtime W} {DV : Driver W F}.

Variable DefaultStableDuration : Time.Duration.

Definition nil_element : error := ErrNew "rod.Element is nil".

(** [Element] (lines 80-92). *)
Definition Element (e : ElementPtr) (selector : string) (s : Session W F)
    : (ElementPtr * option error) * Session W F :=
  match e with
  | None => ((None, Some nil_element), s)
  | Some eh =>
      let (a, s1) := call (CallHas eh selector) (dv_Has eh selector) s in
      match a with
      | HasError err =>
          ((None, Some (ErrNew ("failed to check element existence: " ++ selector
                                ++ nl ++ Error err))), s1)
      | HasAbsent =>
          ((None, Some (ErrNew ("element not found: " ++ selector))), s1)
      | HasFound elem => ((Some elem, None), s1)
      end
  end.

(** [ElementVisible] (lines 97-113). *)
Definition ElementVisible (e : ElementPtr) (selector : string) (s : Session W F)
    : (ElementPtr * option error) * Session W F :=
  match e with
  | None => ((None, Some nil_element), s)
  | Some eh =>
      let (a, s1) := call (CallHas eh selector) (dv_Has eh selector) s in
      match a with
      | HasError err =>
          ((None, Some (ErrNew ("failed to check element existence: " ++ selector
                                ++ nl ++ Error err))), s1)
      | HasAbsent =>
          ((None, Some (ErrNew ("element not found: " ++ selector))), s1)
      | HasFound elem =>
          let (v, s2) := call (CallWaitVisible elem) (rt_WaitVisible elem) s1 in
          match v with
          | Some err =>
              ((None, Some (ErrNew ("failed to wait for element to be visible: "
                                    ++ selector ++ nl ++ Error err))), s2)
          | None => ((Some elem, None), s2)
          end
      end
  end.

(** [ElementStable] (lines 118-138); its failure text says "visible". *)
Definition ElementStable (e : ElementPtr) (selector : string)
    (duration : option Time.Duration) (s : Session W F)
    : (ElementPtr * option error) * Session W F :=
  match e with
  | None => ((None, Some nil_element), s)
  | Some eh =>
      let (a, s1) := call (CallHas eh selector) (dv_Has eh selector) s in
      match a with
      | HasError err =>
          ((None, Some (ErrNew ("failed to check element existence: " ++ selector
                                ++ nl ++ Error err))), s1)
      | HasAbsent =>
          ((None, Some (ErrNew ("element not found: " ++ selector))), s1)
      | HasFound elem =>
          let duration := match duration with
                          | None => DefaultStableDuration
                          | Some d => d
                          end in
          let (v, s2) :=
            call (CallWaitStable elem duration) (rt_WaitStable elem duration) s1 in
          match v with
          | Some err =>
              ((None, Some (ErrNew ("failed to wait for element to be visible: "
                                    ++ selector ++ nl ++ Error err))), s2)
          | None => ((Some elem, None), s2)
          end
      end
  end.

(** [ElementText] (lines 143-159). *)
Definition ElementText (e : ElementPtr) (selector : string) (s : Session W F)
    : (option string * option error) * Session W F :=
  match e with
  | None => ((None, Some nil_element), s)
  | Some eh =>
      let (a, s1) := call (CallHas eh selector) (dv_Has eh selector) s in
      match a with
      | HasError err =>
          ((None, Some (ErrNew ("failed to check element existence: " ++ selector
                                ++ nl ++ Error err))), s1)
      | HasAbsent =>
          ((None, Some (ErrNew ("element not found: " ++ selector))), s1)
      | HasFound elem =>
          let (t, s2) := call (CallText elem) (dv_Text elem) s1 in
          match t with
          | inr err =>
              ((None, Some (ErrNew ("failed to get text: " ++ selector ++ nl
                                    ++ Error err))), s2)
          | inl text => ((Some text, None), s2)
          end
      end
  end.

(** [Elements] (lines 164-176). *)
Definition Elements (e : ElementPtr) (selector : string) (s : Session W F)
    : (list ElementRef * option error) * Session W F :=
  match e with
  | None => (([], Some nil_element), s)
  | Some eh =>
      let (r, s1) := call (CallElements eh selector) (dv_Elements eh selector) s in
      match r with
      | inr err =>
          (([], Some (ErrNew ("failed to get element: " ++ selector ++ nl
                              ++ Error err))), s1)
      | inl elems =>
          if (length elems =? 0)%nat
          then (([], Some (ErrNew ("the number of acquired elements was 0: "
                                   ++ selector))), s1)
          else ((elems, None), s1)
      end
  end.

(** [Click] (lines 180-195). *)
Definition Click (e : ElementPtr) (s : Session W F) : option error * Session W F :=
  match e with
  | None => (Some nil_element, s)
  | Some eh =>
      let (err, s1) := call (CallWaitEnabled eh) (dv_WaitEnabled eh) s in
      match err with
      | Some _ => (Some (ErrNew "failed to wait for element to be enabled"), s1)
      | None =>
          let (err2, s2) := call (CallClick eh) (rt_Click eh) s1 in
          match err2 with
          | Some c => (Some (ErrNew ("failed to click: " ++ Error c)), s2)
          | None => (None, s2)
          end
      end
  end.

(** [ClickAndLoad] (lines 199-213). *)
Definition ClickAndLoad (e : ElementPtr) (s : Session W F)
    : option error * Session W F :=
  match e with
  | None => (Some nil_element, s)
  | Some eh =>
      let (err, s1) := Click e s in
      match err with
      | Some _ => (err, s1)
      | None =>
          let (err2, s2) := call (CallWaitLoad eh) (dv_WaitLoad eh) s1 in
          match err2 with
          | Some l =>
              (Some (ErrNew ("error waiting for page load to complete: " ++ Error l)),
               s2)
          | None => (None, s2)
          end
      end
  end.

(** [Input] (lines 217-232). *)
Definition Input (e : ElementPtr) (txt : string) (s : Session W F)
    : option error * Session W F :=
  match e with
  | None => (Some nil_element, s)
  | Some eh =>
      let (err, s1) := call (CallWaitWritable eh) (dv_WaitWritable eh) s in
      match err with
      | Some _ => (Some (ErrNew "failed to wait for element to be writable"), s1)
      | None =>
          let (err2, s2) := call (CallInput eh txt) (dv_Input eh txt) s1 in
          match err2 with
          | Some c => (Some (ErrNew ("failed to input text: " ++ Error c)), s2)
          | None => (None, s2)
          end
      end
  end.

(** [Attribute] (lines 237-246). *)
Definition Attribute (e : ElementPtr) (name : string) (s : Session W F)
    : (option string * option error) * Session W F :=
  match e with
  | None => ((None, Some nil_element), s)
  | Some eh =>
      let (r, s1) := call (CallAttribute eh name) (dv_Attribute eh name) s in
      match r with
      | inr err =>
          ((None, Some (ErrNew ("failed to get attribute: " ++ name ++ nl
                                ++ Error err))), s1)
      | inl attr => ((attr, None), s1)
      end
  end.

End ElementHelpers.
End El.

(** ** Shapes of a result *)

(** A value or an error, never both and never neither. *)
Definition value_xor_error {A : Type} (r : option A * option error) : Prop :=
  fst r = None <-> snd r <> None.


(** An error that wraps nothing: [errors.Unwrap] gives nil. *)
Definition plain (e : option error) : Prop :=
  match e with
  | Some err => Unwrap err = None
  | None => True
  end.

(** ** What a variant may ask of the world *)

(** The events that [SafeElement] can produce for a page, a selector and a
    policy. *)
Definition SafeElement_event (ph : PageHandle) (selector : string)
    (opts : RodOptions) (ev : Event) : Prop :=
  match ev with
  | EvSleep d => d = RetryDelay opts
  | EvElement p sel t => p = ph /\ sel = selector /\ t = Timeout opts
  | EvWaitVisible _ => MustVisible opts = true
  | EvWaitStable _ d => MustStable opts = true /\ d = StableDuration opts
  | _ => False
  end.

(** The events that [SafeClick] can produce. *)
Definition SafeClick_event (ph : PageHandle) (selector : string)
    (opts : RodOptions) (ev : Event) : Prop :=
  match ev with
  | EvSleep d => d = RetryDelay opts
  | EvElement p sel t => p = ph /\ sel = selector /\ t = Timeout opts
  | EvWaitStable _ d => d = StableDuration opts
  | EvClick _ => True
  | _ => False
  end.

(** ** A still page

    A page that does not change: a selector matches a fixed list of
    elements, some of them hidden or not ready.  It answers both the calls
    of [Runtime] and those of [Driver], with [Z] in the place of
    [float64]. *)
Module Fake.

Record Dom : Type := mkDom {
  matches : string -> list Element;
  shown : Element -> bool;
  ready : Element -> bool;
  height : Z
}.

Definition gone : error := ErrNew "context deadline exceeded".

Definition first_match (w : Dom) (selector : string) : Element + error :=
  match matches w selector with
  | el :: _ => inl el
  | [] => inr gone
  end.

Definition has (w : Dom) (selector : string) : HasAnswer :=
  match matches w selector with
  | el :: _ => HasFound el
  | [] => HasAbsent
  end.

Definition when (b : bool) : option error :=
  if b then None else Some gone.

#[global] Instance runtime : Runtime Dom := {
  rt_Sleep := fun _ w => w;
  rt_Element := fun _ selector _ w => (first_match w selector, w);
  rt_WaitVisible := fun el w => (when (shown w el), w);
  rt_WaitStable := fun _ _ w => (None, w);
  rt_Click := fun el w => (when (ready w el), w);
  rt_Screenshot := fun _ w => (inl Script.png_magic, w);
  rt_MkdirAll := fun _ w => (None, w);
  rt_WriteFile := fun _ _ w => (None, w);
  rt_Now := fun _ => "2024-05-01_12-00-00";
  rt_Dir := Script.Dir;
  rt_select_first := fun _ => true
}.

#[global] Instance driver : Driver Dom Z := {
  dv_zero := 0;
  dv_Navigate := fun _ _ w => (None, w);
  dv_PageElement := fun _ selector w => (first_match w selector, w);
  dv_PageHas := fun _ selector w => (has w selector, w);
  dv_PageElements := fun _ selector w => (inl (matches w selector), w);
  dv_Scroll := fun _ _ _ _ w => (None, w);
  dv_Eval := fun _ _ w => (inl (height w), w);
  dv_Has := fun _ selector w => (has w selector, w);
  dv_Elements := fun _ selector w => (inl (matches w selector), w);
  dv_Text := fun _ w => (inl "Buy now", w);
  dv_WaitEnabled := fun el w => (when (ready w el), w);
  dv_WaitWritable := fun el w => (when (ready w el), w);
  dv_Input := fun _ _ w => (None, w);
  dv_Attribute := fun _ _ w => (inl None, w);
  dv_WaitLoad := fun _ w => (None, w)
}.

(** A page with one button [#buy], element 3, and two items [.item],
    elements 7 and 8, the second hidden and not ready. *)
Definition shop : Dom :=
  mkDom (fun selector =>
           if String.eqb selector "#buy" then [3%nat]
           else if String.eqb selector ".item" then [7%nat; 8%nat]
           else [])
        (fun el => negb (Nat.eqb el 8))
        (fun el => negb (Nat.eqb el 8))
        2400.

Definition open (w : Dom) : Session Dom Z := {| sworld := w; calls := [] |}.

End Fake.

(** ** Tactics *)

(** Opens the calls of a loop body and splits on every answer of the world. *)
Ltac open_body :=
  unfold bind, ret, panic, Sleep, page_Element, page_Screenshot, WaitVisible,
    WaitStable, Click, MkdirAll, WriteFile, Now_Format, log in *;
  simpl in *.

Ltac split_answers :=
  repeat match goal with
         | H : Done _ _ = Done _ _ |- _ => inversion H; subst; clear H
         | H : _ = _ |- _ => discriminate H
         | H : context [match ?x with _ => _ end] |- _ =>
             destruct x eqn:?; simpl in *
         | |- context [match ?x with _ => _ end] =>
             destruct x eqn:?; simpl in *
         | |- context [if ?x then _ else _] => destruct x eqn:?; simpl in *
         end.

(** Closes [extends_with] goals on states built by a run of logged calls. *)
Ltac solve_extends :=
  first [ exists []; split; [now rewrite app_nil_r | constructor]
        | eexists; split;
          [ cbn [trace world]; repeat rewrite <- app_assoc; reflexivity
          | repeat constructor ] ].

(** Splits on every answer of the driver in a helper, innermost first. *)
Ltac open_helper :=
  unfold call in *; simpl in *;
  repeat match goal with
         | |- context [match ?x with _ => _ end] =>
             lazymatch x with
             | context [match _ with _ => _ end] => fail
             | _ => destruct x eqn:?; simpl in *
             end
         end.

(** ** Facts on Go values and traces *)

Lemma Int64_wrap_small z : Int64.in_range z -> Int64.wrap z = z.
Proof.
  unfold Int64.in_range, Int64.wrap, Int64.min_int, Int64.max_int, Int64.modulus.
  intros H. rewrite Z.mod_small; lia.
Qed.

Lemma Int64_wrap_in_range z : Int64.in_range (Int64.wrap z).
Proof.
  unfold Int64.in_range, Int64.wrap, Int64.min_int, Int64.max_int, Int64.modulus.
  pose proof (Z.mod_pos_bound (z + 2 ^ 63) (2 ^ 64) ltac:(lia)). lia.
Qed.


Lemma count_app p (t u : list Event) :
  count p (t ++ u) = count p t + count p u.
Proof.
  unfold count. rewrite filter_app, length_app. lia.
Qed.

Lemma count_nonneg p t : 0 <= count p t.
Proof. unfold count. lia. Qed.

(** ** Facts on the retry loop *)

Section LoopFacts.
Context {W : Type} {RT : Runtime W}.
Context {A : Type}.
Variable retryCount : Z.
Variable body : Z -> option error -> M W (Ctl A).
Variable exhausted : option error -> A.

Lemma retry_loop_unfold fuel i lastErr s :
  retry_loop (S fuel) retryCount body exhausted i lastErr s =
  if i <=? retryCount then
    match body i lastErr s with
    | Done (Return r) s' => Done r s'
    | Done (Continue lastErr') s' =>
        retry_loop fuel retryCount body exhausted (Int64.add i 1) lastErr' s'
    | Panic s' => Panic s'
    | OutOfFuel s' => OutOfFuel s'
    end
  else Done (exhausted lastErr) s.
Proof.
  simpl. destruct (i <=? retryCount); [|reflexivity].
  unfold bind. destruct (body i lastErr s) as [[l|r] s'|s'|s']; reflexivity.
Qed.

Lemma next_index i :
  0 <= i -> i <= retryCount -> retryCount < Int64.max_int ->
  Int64.add i 1 = i + 1.
Proof.
  intros H0 H1 H2. unfold Int64.add. apply Int64_wrap_small.
  unfold Int64.in_range, Int64.min_int, Int64.max_int in *. lia.
Qed.

(** A first pass that returns ends the loop: nothing else runs. *)
Lemma retry_loop_first_return fuel lastErr s r s' :
  0 <= retryCount ->
  body 0 lastErr s = Done (Return r) s' ->
  retry_loop (S fuel) retryCount body exhausted 0 lastErr s = Done r s'.
Proof.
  intros HN Hb. rewrite retry_loop_unfold, Hb.
  destruct (0 <=? retryCount) eqn:E; [reflexivity|]. apply Z.leb_gt in E. lia.
Qed.

(** When no pass returns once [lastErr] is set, the loop entered with an
    error can only end by exhaustion. *)
Lemma retry_loop_sticky :
  (forall j l s c s', body j (Some l) s = Done c s' ->
                      exists l', c = Continue (Some l')) ->
  forall fuel i l s r s',
    retry_loop fuel retryCount body exhausted i (Some l) s = Done r s' ->
    exists l', r = exhausted (Some l').
Proof.
  intros Hb. induction fuel as [|fuel IH]; intros i l s r s' H.
  - discriminate.
  - rewrite retry_loop_unfold in H.
    destruct (i <=? retryCount).
    + destruct (body i (Some l) s) as [c s1|s1|s1] eqn:E; try discriminate.
      destruct (Hb _ _ _ _ _ E) as [l' ->]. eapply IH; eassumption.
    + inversion H; subst. eauto.
Qed.

(** Every pass fails as long as [lastErr] satisfies [Inv], which every
    error that is not nil does: the loop makes [retryCount + 1 - i]
    passes and ends by exhaustion with the error of the last one.  [R]
    relates a failing pass to its error; [cnt] is any counter that each
    pass advances by one. *)
Variable Inv : option error -> Prop.
Variable R : Z -> State W -> error -> State W -> Prop.
Variable cnt : State W -> Z.

Lemma retry_loop_all_fail :
  retryCount < Int64.max_int ->
  (forall e, Inv (Some e)) ->
  (forall j l s, 0 <= j <= retryCount -> Inv l ->
     exists e s', body j l s = Done (Continue (Some e)) s' /\
                  R j s e s' /\ cnt s' = cnt s + 1) ->
  forall (n : nat) fuel i l s,
    0 <= i <= retryCount ->
    Inv l ->
    Z.of_nat n = retryCount - i ->
    (n < fuel)%nat ->
    exists e s_last s',
      retry_loop (S fuel) retryCount body exhausted i l s
        = Done (exhausted (Some e)) s' /\
      R retryCount s_last e s' /\
      cnt s' = cnt s + (retryCount + 1 - i).
Proof.
  intros Hmax Hinv Hb. induction n as [|n IH]; intros fuel i l s Hi Hl Hn Hf.
  - assert (i = retryCount) by lia. subst i.
    destruct (Hb retryCount l s Hi Hl) as (e & s1 & E & HR & Hc).
    rewrite retry_loop_unfold, E, Z.leb_refl.
    destruct fuel as [|fuel]; [lia|].
    rewrite retry_loop_unfold.
    rewrite next_index by lia.
    destruct (retryCount + 1 <=? retryCount) eqn:L;
      [apply Z.leb_le in L; lia|].
    exists e, s, s1. repeat split; try assumption. lia.
  - destruct (Hb i l s Hi Hl) as (e & s1 & E & HR & Hc).
    rewrite retry_loop_unfold, E.
    destruct (i <=? retryCount) eqn:L; [|apply Z.leb_gt in L; lia].
    rewrite next_index by lia.
    destruct fuel as [|fuel]; [lia|].
    destruct (IH fuel (i + 1) (Some e) s1) as (e2 & sl & s2 & E2 & HR2 & Hc2);
      try lia; auto.
    exists e2, sl, s2. repeat split; try assumption. lia.
Qed.

End LoopFacts.

(** ** Facts on the loop bodies *)

Lemma extends_refl {W : Type} (P : Event -> Prop) (s : State W) :
  extends_with P s s.
Proof. exists []. split; [now rewrite app_nil_r | constructor]. Qed.

Lemma extends_trans {W : Type} (P : Event -> Prop) (s1 s2 s3 : State W) :
  extends_with P s1 s2 -> extends_with P s2 s3 -> extends_with P s1 s3.
Proof.
  intros (n1 & E1 & F1) (n2 & E2 & F2). exists (n1 ++ n2)%list. split.
  - now rewrite E2, E1, app_assoc.
  - apply Forall_app; auto.
Qed.

Lemma extends_log {W : Type} (P : Event -> Prop) (s : State W) ev w' :
  P ev -> extends_with P s {| world := w'; trace := trace s ++ [ev] |}.
Proof. intros H. exists [ev]. split; [reflexivity | now constructor]. Qed.

Section TraceFacts.
Context {W : Type} {RT : Runtime W}.
Context {A : Type}.
Variable retryCount : Z.
Variable body : Z -> option error -> M W (Ctl A).
Variable exhausted : option error -> A.
Variable P : Event -> Prop.

(** What holds of the events of every pass holds of the events of the
    loop, however it ends. *)
Lemma retry_loop_trace :
  (forall j l s, extends_with P s (final_state (body j l s))) ->
  forall fuel i l s,
    extends_with P s
      (final_state (retry_loop fuel retryCount body exhausted i l s)).
Proof.
  intros Hb. induction fuel as [|fuel IH]; intros i l s.
  - simpl. apply extends_refl.
  - rewrite retry_loop_unfold. destruct (i <=? retryCount).
    + pose proof (Hb i l s) as H1.
      destruct (body i l s) as [[l'|r] s1|s1|s1]; simpl in *; try assumption.
      eapply extends_trans; [exact H1 | apply IH].
    + simpl. apply extends_refl.
Qed.
End TraceFacts.

Section BodyFacts.
Context {W : Type} {RT : Runtime W}.
Variable selector : string.
Variable opts : RodOptions.

(** *** SafeClick *)

Lemma SafeClick_body_fail_any page i s e s' :
  SafeClick_body page selector opts i None s = Done (Continue (Some e)) s' ->
  forall l, SafeClick_body page selector opts i l s = Done (Continue (Some e)) s'.
Proof.
  unfold SafeClick_body. intros H l. destruct page; open_body;
    destruct (0 <? i); simpl in *; split_answers; try discriminate; reflexivity.
Qed.

Lemma SafeClick_body_sticky page i l s c s' :
  SafeClick_body page selector opts i (Some l) s = Done c s' ->
  exists l', c = Continue (Some l').
Proof.
  unfold SafeClick_body. intros H. destruct page; open_body;
    destruct (0 <? i); simpl in *; split_answers; eauto.
Qed.

Lemma SafeClick_body_attempt page i l s c s' :
  SafeClick_body page selector opts i l s = Done c s' ->
  attempts (trace s') = attempts (trace s) + 1.
Proof.
  unfold SafeClick_body, attempts. intros H. destruct page; open_body;
    destruct (0 <? i); simpl in *; split_answers; cbn [trace world];
    repeat rewrite count_app; unfold count; simpl; lia.
Qed.

Lemma SafeClick_body_no_visible_wait page i l s :
  extends_with (fun ev => is_visible_wait ev = false) s
    (final_state (SafeClick_body page selector opts i l s)).
Proof.
  unfold SafeClick_body. destruct page; open_body;
    destruct (0 <? i); simpl in *; split_answers;
    solve_extends.
Qed.

(** *** SafeElement *)

Lemma SafeElement_body_fail_any p i s e s' :
  SafeElement_body p selector opts i None s = Done (Continue (Some e)) s' ->
  forall l, SafeElement_body p selector opts i l s = Done (Continue (Some e)) s'.
Proof.
  unfold SafeElement_body. intros H l. destruct p; open_body;
    destruct (0 <? i); simpl in *; split_answers; try discriminate; reflexivity.
Qed.

Lemma SafeElement_body_pass_any p i s el s' :
  SafeElement_body p selector opts i None s = Done (Return (Some el, None)) s' ->
  forall l, SafeElement_body p selector opts i l s = Done (Return (Some el, l)) s'.
Proof.
  unfold SafeElement_body. intros H l. destruct p; open_body;
    destruct (0 <? i); simpl in *; split_answers; try discriminate; reflexivity.
Qed.

Lemma SafeElement_body_attempt p i l s c s' :
  SafeElement_body p selector opts i l s = Done c s' ->
  attempts (trace s') = attempts (trace s) + 1.
Proof.
  unfold SafeElement_body, attempts. intros H. destruct p; open_body;
    destruct (0 <? i); simpl in *; split_answers; cbn [trace world];
    repeat rewrite count_app; unfold count; simpl; lia.
Qed.

Lemma SafeElement_body_waits_enabled p i l s :
  extends_with (wait_is_enabled opts) s
    (final_state (SafeElement_body p selector opts i l s)).
Proof.
  unfold SafeElement_body.
  destruct (MustVisible opts) eqn:Hv; destruct (MustStable opts) eqn:Hs;
    destruct p; open_body; destruct (0 <? i); simpl in *; split_answers;
    first [ apply extends_refl
          | eexists; split;
            [ cbn [trace world]; repeat rewrite <- app_assoc; reflexivity
            | repeat constructor; unfold wait_is_enabled; simpl;
              rewrite ?Hv, ?Hs; intros; congruence ] ].
Qed.

End BodyFacts.

(** ** Exhaustion *)

Section RunFacts.
Context {W : Type} {RT : Runtime W}.
Context {A : Type}.
Variable retryCount : Z.
Variable body : Z -> option error -> M W (Ctl A).
Variable exhausted : option error -> A.

(** A run in which every pass fails: pass [i] starts in [st i], fails with
    [er i] and leaves [st (i + 1)]. *)
Variable st : Z -> State W.
Variable er : Z -> error.

(** Along such a run the loop makes the passes [i], ..., [retryCount] and
    ends by exhaustion with the error of the last one. *)
Lemma retry_loop_run :
  retryCount < Int64.max_int ->
  (forall i l, 0 <= i <= retryCount ->
     body i l (st i) = Done (Continue (Some (er i))) (st (i + 1))) ->
  forall (n : nat) fuel i l,
    0 <= i <= retryCount ->
    Z.of_nat n = retryCount - i ->
    (n < fuel)%nat ->
    retry_loop (S fuel) retryCount body exhausted i l (st i)
    = Done (exhausted (Some (er retryCount))) (st (retryCount + 1)).
Proof.
  intros Hmax Hb. induction n as [|n IH]; intros fuel i l Hi Hn Hf.
  - assert (i = retryCount) by lia. subst i.
    rewrite retry_loop_unfold, (Hb retryCount l Hi), Z.leb_refl.
    destruct fuel as [|fuel]; [lia|].
    rewrite retry_loop_unfold. rewrite (next_index retryCount) by lia.
    destruct (retryCount + 1 <=? retryCount) eqn:L; [apply Z.leb_le in L; lia|].
    reflexivity.
  - rewrite retry_loop_unfold, (Hb i l Hi).
    destruct (i <=? retryCount) eqn:L; [|apply Z.leb_gt in L; lia].
    rewrite (next_index retryCount) by lia.
    destruct fuel as [|fuel]; [lia|].
    apply IH; lia.
Qed.

(** A counter that every pass of the run advances by one. *)
Lemma run_advances_by_one (cnt : State W -> Z) :
  0 <= retryCount ->
  (forall i, 0 <= i <= retryCount -> cnt (st (i + 1)) = cnt (st i) + 1) ->
  cnt (st (retryCount + 1)) = cnt (st 0) + (retryCount + 1).
Proof.
  intros HN Hstep.
  assert (H : forall n : nat, Z.of_nat n <= retryCount + 1 ->
                cnt (st (Z.of_nat n)) = cnt (st 0) + Z.of_nat n).
  { induction n as [|n IH]; intros Hn.
    - simpl. lia.
    - rewrite Nat2Z.inj_succ, <- Z.add_1_r. rewrite Hstep by lia.
      rewrite IH by lia. lia. }
  specialize (H (Z.to_nat (retryCount + 1))).
  rewrite Z2Nat.id in H by lia. apply H. lia.
Qed.

(** A counter that every pass but the first advances by one. *)
Lemma run_advances_after_first (cnt : State W -> Z) :
  0 <= retryCount ->
  (forall i, 0 <= i <= retryCount ->
     cnt (st (i + 1)) = cnt (st i) + (if 0 <? i then 1 else 0)) ->
  cnt (st (retryCount + 1)) = cnt (st 0) + retryCount.
Proof.
  intros HN Hstep.
  assert (H : forall n : nat, Z.of_nat n <= retryCount ->
                cnt (st (Z.of_nat n + 1)) = cnt (st 0) + Z.of_nat n).
  { induction n as [|n IH]; intros Hn.
    - change (Z.of_nat 0) with 0. rewrite (Hstep 0) by lia. simpl. lia.
    - rewrite Nat2Z.inj_succ, <- Z.add_1_r. rewrite Hstep by lia.
      rewrite IH by lia.
      destruct (0 <? Z.of_nat n + 1) eqn:L; [lia | apply Z.ltb_ge in L; lia]. }
  specialize (H (Z.to_nat retryCount)).
  rewrite Z2Nat.id in H by lia. apply H. lia.
Qed.

End RunFacts.

Section Exhaustion.
Context {W : Type} {RT : Runtime W}.
Variable ph : PageHandle.
Variable selector : string.
Variable opts : RodOptions.

(** A locate that fails makes the pass fail with "element not found", in
    both variants. *)
Lemma SafeClick_body_locate_failed i l s err w' :
  rt_Element ph selector (Timeout opts) (world (after_delay opts i s)) = (inr err, w') ->
  SafeClick_body (Some ph) selector opts i l s
  = Done (Continue (Some (ErrWrap "element not found" (Some err))))
      (log (EvElement ph selector (Timeout opts)) w' (after_delay opts i s)).
Proof.
  unfold SafeClick_body, after_delay. open_body.
  destruct (0 <? i); simpl; intros H; rewrite H; reflexivity.
Qed.

Lemma SafeElement_body_locate_failed i l s err w' :
  rt_Element ph selector (Timeout opts) (world (after_delay opts i s)) = (inr err, w') ->
  SafeElement_body (Some ph) selector opts i l s
  = Done (Continue (Some (ErrWrap "element not found" (Some err))))
      (log (EvElement ph selector (Timeout opts)) w' (after_delay opts i s)).
Proof.
  unfold SafeElement_body, after_delay. open_body.
  destruct (0 <? i); simpl; intros H; rewrite H; reflexivity.
Qed.

(** What a pass adds to the trace: the delay when it is not the first,
    then the locate, then events that are neither. *)
Lemma SafeClick_body_shape i l s c s' :
  SafeClick_body (Some ph) selector opts i l s = Done c s' ->
  exists rest,
    trace s' = (trace s
                ++ (if 0 <? i then [EvSleep (RetryDelay opts)] else [])
                ++ EvElement ph selector (Timeout opts) :: rest)%list /\
    Forall (fun ev => is_sleep ev = false /\ is_locate ev = false) rest.
Proof.
  unfold SafeClick_body. intros H. open_body.
  destruct (0 <? i); simpl in *; split_answers; cbn [trace world];
    eexists; (split; [repeat rewrite <- app_assoc; simpl; reflexivity
                     | repeat constructor]).
Qed.

Lemma SafeElement_body_shape i l s c s' :
  SafeElement_body (Some ph) selector opts i l s = Done c s' ->
  exists rest,
    trace s' = (trace s
                ++ (if 0 <? i then [EvSleep (RetryDelay opts)] else [])
                ++ EvElement ph selector (Timeout opts) :: rest)%list /\
    Forall (fun ev => is_sleep ev = false /\ is_locate ev = false) rest.
Proof.
  unfold SafeElement_body. intros H. open_body.
  destruct (0 <? i); simpl in *; split_answers; cbn [trace world];
    eexists; (split; [repeat rewrite <- app_assoc; simpl; reflexivity
                     | repeat constructor]).
Qed.

Hypothesis retry_range : 0 <= RetryCount opts < Int64.max_int.

(** [SafeClick] along a run in which every attempt fails. *)
Lemma SafeClick_run (st : Z -> State W) (er : Z -> error) fuel :
  (Z.to_nat (RetryCount opts) + 2 <= fuel)%nat ->
  (forall i, 0 <= i <= RetryCount opts ->
     SafeClick_body (Some ph) selector opts i None (st i)
     = Done (Continue (Some (er i))) (st (i + 1))) ->
  SafeClick fuel (Some ph) selector (Some opts) (st 0)
  = Done (Some (ErrWrap "all click attempts failed" (Some (er (RetryCount opts)))))
      (st (RetryCount opts + 1)).
Proof.
  intros Hf Hrun. destruct fuel as [|fuel]; [lia|].
  unfold SafeClick, or_default.
  apply (retry_loop_run (RetryCount opts) (SafeClick_body (Some ph) selector opts)
           (fun lastErr => Some (ErrWrap "all click attempts failed" lastErr))
           st er ltac:(lia)) with (n := Z.to_nat (RetryCount opts)); try lia.
  intros i l Hi. apply SafeClick_body_fail_any. now apply Hrun.
Qed.

(** [SafeElement] along a run in which every attempt fails. *)
Lemma SafeElement_run (st : Z -> State W) (er : Z -> error) fuel :
  (Z.to_nat (RetryCount opts) + 2 <= fuel)%nat ->
  (forall i, 0 <= i <= RetryCount opts ->
     SafeElement_body (Some ph) selector opts i None (st i)
     = Done (Continue (Some (er i))) (st (i + 1))) ->
  SafeElement fuel (Some ph) selector (Some opts) (st 0)
  = Done (None,
          Some (ErrWrap "all attempts to get element failed"
                  (Some (er (RetryCount opts)))))
      (st (RetryCount opts + 1)).
Proof.
  intros Hf Hrun. destruct fuel as [|fuel]; [lia|].
  unfold SafeElement, or_default.
  apply (retry_loop_run (RetryCount opts) (SafeElement_body (Some ph) selector opts)
           (fun lastErr =>
              (@None Element,
               Some (ErrWrap "all attempts to get element failed" lastErr)))
           st er ltac:(lia)) with (n := Z.to_nat (RetryCount opts)); try lia.
  intros i l Hi. apply SafeElement_body_fail_any. now apply Hrun.
Qed.

End Exhaustion.

(** With the largest [int] as retry count the loop condition [i <= N]
    never fails: where no attempt succeeds the loop does not end. *)
Lemma largest_retry_count_never_ends (fuel : nat) :
  forall i l (s : State unit),
    Int64.in_range i ->
    exists s',
      retry_loop fuel Int64.max_int
        (SafeClick_body (Some 1%nat) "#go"
           (mkRodOptions 5 7 Int64.max_int 9 true true true))
        (fun lastErr => Some (ErrWrap "all click attempts failed" lastErr))
        i l s
      = OutOfFuel s'.
Proof.
  induction fuel as [|fuel IH]; intros i l s Hi.
  - simpl. eauto.
  - rewrite retry_loop_unfold.
    destruct (i <=? Int64.max_int) eqn:L;
      [|apply Z.leb_gt in L; unfold Int64.in_range in Hi; lia].
    unfold SafeClick_body at 1. open_body.
    destruct (0 <? i); simpl; apply IH; apply Int64_wrap_in_range.
Qed.

(** ** Success after a failed attempt *)

Section LateSuccess.
Context {W : Type} {RT : Runtime W}.
Variable ph : PageHandle.
Variable selector : string.
Variable opts : RodOptions.

(** A pass of [SafeClick] on a page that is not nil always comes to its
    end. *)
Lemma SafeClick_body_returns i l s :
  exists c s', SafeClick_body (Some ph) selector opts i l s = Done c s'.
Proof.
  unfold SafeClick_body. open_body.
  destruct (0 <? i); simpl; split_answers; eauto.
Qed.

(** A pass whose checks and click all succeed returns only when no earlier
    pass has failed; otherwise it makes the same calls, the click
    included, and goes on with the old error. *)
Lemma SafeClick_body_success_stale i s s' :
  SafeClick_body (Some ph) selector opts i None s = Done (Return None) s' ->
  forall e, SafeClick_body (Some ph) selector opts i (Some e) s
            = Done (Continue (Some e)) s'.
Proof.
  unfold SafeClick_body. intros H e. open_body.
  destruct (0 <? i); simpl in *; split_answers; try discriminate; reflexivity.
Qed.

(** Once a pass has failed, every later pass of [SafeClick] continues. *)
Lemma SafeClick_body_after_failure i e s :
  exists e' s',
    SafeClick_body (Some ph) selector opts i (Some e) s
    = Done (Continue (Some e')) s' /\
    attempts (trace s') = attempts (trace s) + 1.
Proof.
  destruct (SafeClick_body_returns i (Some e) s) as (c & s' & E).
  destruct (SafeClick_body_sticky _ _ _ _ _ _ _ _ E) as (e' & ->).
  exists e', s'. split; [exact E|].
  eapply SafeClick_body_attempt; exact E.
Qed.

Lemma SafeClick_after_first_failure fuel s e s1 :
  0 <= RetryCount opts < Int64.max_int ->
  (Z.to_nat (RetryCount opts) + 2 <= fuel)%nat ->
  SafeClick_body (Some ph) selector opts 0 None s = Done (Continue (Some e)) s1 ->
  exists l s',
    SafeClick fuel (Some ph) selector (Some opts) s
      = Done (Some (ErrWrap "all click attempts failed" (Some l))) s' /\
    attempts (trace s') = attempts (trace s) + (RetryCount opts + 1).
Proof.
  intros Hr Hf H0. destruct fuel as [|fuel]; [lia|].
  unfold SafeClick, or_default.
  rewrite retry_loop_unfold, H0.
  destruct (0 <=? RetryCount opts) eqn:L; [|apply Z.leb_gt in L; lia].
  pose proof (SafeClick_body_attempt _ _ _ _ _ _ _ _ H0) as Hc0.
  destruct (Z.eq_dec (RetryCount opts) 0) as [Hz|Hz].
  - destruct fuel as [|fuel]; [lia|]. rewrite retry_loop_unfold.
    rewrite Hz. simpl. exists e, s1. split; [reflexivity|]. lia.
  - destruct fuel as [|fuel]; [lia|].
    destruct (retry_loop_all_fail (RetryCount opts)
                (SafeClick_body (Some ph) selector opts)
                (fun lastErr => Some (ErrWrap "all click attempts failed" lastErr))
                (fun l => l <> None)
                (fun _ _ _ _ => True)
                (fun s0 => attempts (trace s0))
                ltac:(lia) ltac:(discriminate))
      with (n := Z.to_nat (RetryCount opts - 1)) (fuel := fuel)
           (i := 1) (l := Some e) (s := s1)
      as (e2 & sl & s2 & E2 & _ & Hc2); try lia; try discriminate.
    + intros j l s0 Hj Hl. destruct l as [x|]; [|congruence].
      destruct (SafeClick_body_after_failure j x s0) as (e' & s' & E & Hc).
      exists e', s'. auto.
    + change (Int64.add 0 1) with 1.
      exists e2, s2. split; [exact E2|]. rewrite Hc2, Hc0. lia.
Qed.

(** [SafeElement]: a pass whose checks all succeed returns the element
    with whatever [lastErr] holds. *)
Lemma SafeElement_late_success fuel s e s1 el s2 :
  1 <= RetryCount opts ->
  (2 <= fuel)%nat ->
  SafeElement_body (Some ph) selector opts 0 None s
    = Done (Continue (Some e)) s1 ->
  SafeElement_body (Some ph) selector opts 1 None s1
    = Done (Return (Some el, None)) s2 ->
  SafeElement fuel (Some ph) selector (Some opts) s
    = Done (Some el, Some e) s2.
Proof.
  intros Hr Hf H0 H1.
  destruct fuel as [|[|fuel]]; try lia.
  unfold SafeElement, or_default.
  rewrite retry_loop_unfold, H0.
  destruct (0 <=? RetryCount opts) eqn:L0; [|apply Z.leb_gt in L0; lia].
  change (Int64.add 0 1) with 1.
  rewrite retry_loop_unfold.
  destruct (1 <=? RetryCount opts) eqn:L1; [|apply Z.leb_gt in L1; lia].
  rewrite (SafeElement_body_pass_any _ _ _ _ _ _ _ H1 (Some e)).
  reflexivity.
Qed.

End LateSuccess.

(** ** The claims *)

(** C8. The default policy: timeout 10 s, stable duration 200 ms, three
    retries, retry delay 500 ms (durations in nanoseconds), and the
    visibility, stability and page-load requirements all on. *)
Theorem DefaultRodOptions_values :
  Timeout DefaultRodOptions = 10 * Time.Second /\
  Timeout DefaultRodOptions = 10000000000 /\
  StableDuration DefaultRodOptions = 200 * Time.Millisecond /\
  StableDuration DefaultRodOptions = 200000000 /\
  RetryCount DefaultRodOptions = 3 /\
  RetryDelay DefaultRodOptions = 500 * Time.Millisecond /\
  RetryDelay DefaultRodOptions = 500000000 /\
  MustVisible DefaultRodOptions = true /\
  MustStable DefaultRodOptions = true /\
  MustWaitLoad DefaultRodOptions = true.
Proof. repeat split. Qed.

(** C9. A nil options argument is replaced by the default policy before the
    first attempt: [SafeClick] and [SafeElement] with nil options run
    exactly as with [DefaultRodOptions()], from every world and with every
    page. *)
Theorem nil_options_are_default {W : Type} {RT : Runtime W}
    (fuel : nat) (page : Page) (selector : string) (s : State W) :
  SafeClick fuel page selector None s
    = SafeClick fuel page selector (Some DefaultRodOptions) s /\
  SafeElement fuel page selector None s
    = SafeElement fuel page selector (Some DefaultRodOptions) s.
Proof. split; reflexivity. Qed.

(** C6 (amended).  With [retryCount = N], [0 <= N] and [N] below the
    largest [int]: when every attempt of a call fails, the call makes
    exactly [N + 1] attempts and returns one aggregated error that wraps
    the failure of the last attempt, the pass with index [N], and nothing
    of the earlier ones; when the locate of that attempt fails, the failure
    is "element not found".  This holds of [SafeClick] and of
    [SafeElement], each along its own run: attempt [i] starts in [st i],
    fails with [er i] and leaves [st (i + 1)]. *)
Theorem exhaustion_last_failure_wins {W : Type} {RT : Runtime W}
    (ph : PageHandle) (selector : string) (opts : RodOptions)
    (fuel : nat) (st : Z -> State W) (er : Z -> error) :
  0 <= RetryCount opts < Int64.max_int ->
  (Z.to_nat (RetryCount opts) + 2 <= fuel)%nat ->
  ((forall i, 0 <= i <= RetryCount opts ->
      SafeClick_body (Some ph) selector opts i None (st i)
      = Done (Continue (Some (er i))) (st (i + 1))) ->
   SafeClick fuel (Some ph) selector (Some opts) (st 0)
   = Done (Some (ErrWrap "all click attempts failed"
                   (Some (er (RetryCount opts)))))
       (st (RetryCount opts + 1)) /\
   attempts (trace (st (RetryCount opts + 1)))
   = attempts (trace (st 0)) + (RetryCount opts + 1) /\
   (forall err w',
      rt_Element ph selector (Timeout opts)
        (world (after_delay opts (RetryCount opts) (st (RetryCount opts))))
      = (inr err, w') ->
      er (RetryCount opts) = ErrWrap "element not found" (Some err))) /\
  ((forall i, 0 <= i <= RetryCount opts ->
      SafeElement_body (Some ph) selector opts i None (st i)
      = Done (Continue (Some (er i))) (st (i + 1))) ->
   SafeElement fuel (Some ph) selector (Some opts) (st 0)
   = Done (None,
           Some (ErrWrap "all attempts to get element failed"
                   (Some (er (RetryCount opts)))))
       (st (RetryCount opts + 1)) /\
   attempts (trace (st (RetryCount opts + 1)))
   = attempts (trace (st 0)) + (RetryCount opts + 1) /\
   (forall err w',
      rt_Element ph selector (Timeout opts)
        (world (after_delay opts (RetryCount opts) (st (RetryCount opts))))
      = (inr err, w') ->
      er (RetryCount opts) = ErrWrap "element not found" (Some err))).
Proof.
  intros Hr Hf. split; intros Hrun; (split; [|split]).
  - now apply SafeClick_run.
  - apply (run_advances_by_one (RetryCount opts) st
             (fun s0 => attempts (trace s0))); [lia|].
    intros i Hi. eapply SafeClick_body_attempt. apply (Hrun i Hi).
  - intros err w' Hloc.
    pose proof (Hrun (RetryCount opts) ltac:(lia)) as Hlast.
    rewrite (SafeClick_body_locate_failed ph selector opts _ _ _ _ _ Hloc) in Hlast.
    inversion Hlast. reflexivity.
  - now apply SafeElement_run.
  - apply (run_advances_by_one (RetryCount opts) st
             (fun s0 => attempts (trace s0))); [lia|].
    intros i Hi. eapply SafeElement_body_attempt. apply (Hrun i Hi).
  - intros err w' Hloc.
    pose proof (Hrun (RetryCount opts) ltac:(lia)) as Hlast.
    rewrite (SafeElement_body_locate_failed ph selector opts _ _ _ _ _ Hloc) in Hlast.
    inversion Hlast. reflexivity.
Qed.

(** One retry.  The locate fails with "first" and then with "second":
    both variants make two attempts and report "second".  And when the
    second attempt of [SafeClick] finds the element but cannot click it,
    the call reports the click. *)
Lemma exhaustion_last_failure_wins_witness :
  let once := mkRodOptions 5 7 1 9 true true true in
  let absent := Script.locating [inr (ErrNew "first"); inr (ErrNew "second")] in
  let covered :=
    Script.mkWorld [inr (ErrNew "first"); inl 4%nat] [] []
      [Some (ErrNew "covered")] [] [] [] "2024-05-01_12-00-00" true in
  SafeClick 3 (Some 1%nat) "#go" (Some once) (Script.start absent)
  = Done (Some (ErrWrap "all click attempts failed"
                  (Some (ErrWrap "element not found" (Some (ErrNew "second"))))))
      {| world := Script.locating [];
         trace := [EvElement 1%nat "#go" 5; EvSleep 9; EvElement 1%nat "#go" 5] |} /\
  SafeElement 3 (Some 1%nat) "#go" (Some once) (Script.start absent)
  = Done (None,
          Some (ErrWrap "all attempts to get element failed"
                  (Some (ErrWrap "element not found" (Some (ErrNew "second"))))))
      {| world := Script.locating [];
         trace := [EvElement 1%nat "#go" 5; EvSleep 9; EvElement 1%nat "#go" 5] |} /\
  SafeClick 3 (Some 1%nat) "#go" (Some once) (Script.start covered)
  = Done (Some (ErrWrap "all click attempts failed"
                  (Some (ErrWrap "click failed" (Some (ErrNew "covered"))))))
      {| world := Script.locating [];
         trace := [EvElement 1%nat "#go" 5; EvSleep 9; EvElement 1%nat "#go" 5;
                   EvWaitStable 4%nat 7; EvClick 4%nat] |}.
Proof.
  intros once absent covered.
  pose (st1 := fun i : Z =>
          if i =? 0 then Script.start absent
          else if i =? 1
               then {| world := Script.locating [inr (ErrNew "second")];
                       trace := [EvElement 1%nat "#go" 5] |}
               else {| world := Script.locating [];
                       trace := [EvElement 1%nat "#go" 5; EvSleep 9;
                                 EvElement 1%nat "#go" 5] |}).
  pose (er1 := fun i : Z =>
          if i =? 0 then ErrWrap "element not found" (Some (ErrNew "first"))
          else ErrWrap "element not found" (Some (ErrNew "second"))).
  pose (st2 := fun i : Z =>
          if i =? 0 then Script.start covered
          else if i =? 1
               then {| world := Script.mkWorld [inl 4%nat] [] []
                                  [Some (ErrNew "covered")] [] [] []
                                  "2024-05-01_12-00-00" true;
                       trace := [EvElement 1%nat "#go" 5] |}
               else {| world := Script.locating [];
                       trace := [EvElement 1%nat "#go" 5; EvSleep 9;
                                 EvElement 1%nat "#go" 5;
                                 EvWaitStable 4%nat 7; EvClick 4%nat] |}).
  pose (er2 := fun i : Z =>
          if i =? 0 then ErrWrap "element not found" (Some (ErrNew "first"))
          else ErrWrap "click failed" (Some (ErrNew "covered"))).
  assert (Hrange : 0 <= RetryCount once < Int64.max_int)
    by (unfold Int64.max_int; simpl; lia).
  assert (Hfuel : (Z.to_nat (RetryCount once) + 2 <= 3)%nat) by (simpl; lia).
  assert (Hcases : forall i, 0 <= i <= RetryCount once -> i = 0 \/ i = 1)
    by (simpl; intros; lia).
  destruct (@exhaustion_last_failure_wins Script.World Script.runtime
              1%nat "#go" once 3%nat st1 er1 Hrange Hfuel) as (Hc1 & He1).
  destruct (@exhaustion_last_failure_wins Script.World Script.runtime
              1%nat "#go" once 3%nat st2 er2 Hrange Hfuel) as (Hc2 & _).
  split; [|split].
  - apply Hc1. intros i Hi. destruct (Hcases i Hi) as [-> | ->]; reflexivity.
  - apply He1. intros i Hi. destruct (Hcases i Hi) as [-> | ->]; reflexivity.
  - apply Hc2. intros i Hi. destruct (Hcases i Hi) as [-> | ->]; reflexivity.
Defined.

(** C6 as stated, for every policy, fails outside that range.  With a
    retry count of -2 no attempt is made, not [N + 1 = -1] of them, and
    the error returned wraps nil, not the failure of a last attempt.  With
    the largest [int] as retry count, in the world without the element,
    the call never returns: no budget of passes is enough. *)
Lemma retry_count_out_of_range :
  SafeClick 5 (Some 1%nat) "#go"
    (Some (mkRodOptions 5 7 (-2) 9 true true true)) Absent.start
  = Done (Some (ErrWrap "all click attempts failed" None)) Absent.start /\
  SafeElement 5 (Some 1%nat) "#go"
    (Some (mkRodOptions 5 7 (-2) 9 true true true)) Absent.start
  = Done (None, Some (ErrWrap "all attempts to get element failed" None))
      Absent.start /\
  attempts (trace Absent.start) = 0 /\
  forall fuel, exists s',
    SafeClick fuel (Some 1%nat) "#go"
      (Some (mkRodOptions 5 7 Int64.max_int 9 true true true)) Absent.start
    = OutOfFuel s'.
Proof.
  repeat split.
  intros fuel. unfold SafeClick, or_default. cbn [RetryCount].
  apply largest_retry_count_never_ends.
  unfold Int64.in_range, Int64.min_int, Int64.max_int. lia.
Qed.

(** *** The bounded runner *)

Section Runner.
Context {W : Type} {RT : Runtime W}.
Variable timeout : Time.Duration.
Variable f : Operation W.
Variable s : State W.

(** An error that the operation returns before the deadline is the
    result. *)
Lemma timeLimit_error_before_deadline d err :
  op_elapsed (f (world s)) = Some d ->
  op_result (f (world s)) = Some err ->
  d < Z.max 0 timeout ->
  timeLimit timeout f s = Done (Some err) (log (EvTimeLimit timeout) (op_world (f (world s))) s).
Proof.
  intros Hd He Hlt. unfold timeLimit. rewrite Hd, He.
  apply Z.ltb_lt in Hlt. rewrite Hlt. reflexivity.
Qed.

(** When the deadline comes first the result is the timeout error,
    whatever the operation does later. *)
Lemma timeLimit_deadline_first :
  (forall d, op_elapsed (f (world s)) = Some d -> Z.max 0 timeout < d) ->
  timeLimit timeout f s
  = Done (Some timeout_error)
      (log (EvTimeLimit timeout) (op_world (f (world s))) s).
Proof.
  intros Hlate. unfold timeLimit.
  destruct (op_elapsed (f (world s))) as [d|]; [|reflexivity].
  specialize (Hlate d eq_refl).
  destruct (op_result (f (world s))); [|reflexivity].
  destruct (d <? Z.max 0 timeout) eqn:L1; [apply Z.ltb_lt in L1; lia|].
  destruct (d =? Z.max 0 timeout) eqn:L2; [apply Z.eqb_eq in L2; lia|].
  reflexivity.
Qed.

(** The runner never returns nil. *)
Lemma timeLimit_never_nil :
  exists e,
    timeLimit timeout f s
    = Done (Some e) (log (EvTimeLimit timeout) (op_world (f (world s))) s).
Proof.
  unfold timeLimit.
  destruct (op_elapsed (f (world s))) as [d|]; [|eauto].
  destruct (op_result (f (world s))); [|eauto].
  destruct (d <? Z.max 0 timeout); [eauto|].
  destruct (d =? Z.max 0 timeout); [|eauto].
  destruct (rt_select_first (world s)); eauto.
Qed.
End Runner.

(** C1 (the code departs from the claim).  An operation that succeeds sends
    nothing on the channel, so [timeLimit] waits for the deadline and
    returns the timeout error, however early the operation completed: the
    operation's own result, success, is not what the caller gets. *)
Theorem timeLimit_success_is_reported_as_timeout {W : Type} {RT : Runtime W}
    (timeout : Time.Duration) (f : Operation W) (s : State W) :
  op_result (f (world s)) = None ->
  timeLimit timeout f s
    = Done (Some timeout_error)
        (log (EvTimeLimit timeout) (op_world (f (world s))) s).
Proof.
  intros Hok. unfold timeLimit. rewrite Hok.
  destruct (op_elapsed (f (world s))); reflexivity.
Qed.

(** An operation that succeeds after one nanosecond, run with a deadline of
    one second. *)
Lemma timeLimit_success_is_reported_as_timeout_witness :
  timeLimit Time.Second (Script.op (Some 1) None)
    (Script.start (Script.locating []))
  = Done (Some (ErrNew "operation timed out: context deadline exceeded"))
      {| world := Script.locating []; trace := [EvTimeLimit 1000000000] |}.
Proof.
  apply (@timeLimit_success_is_reported_as_timeout Script.World Script.runtime
           Time.Second (Script.op (Some 1) None)
           (Script.start (Script.locating []))).
  reflexivity.
Defined.

(** *** Success on a later attempt *)

(** A first attempt that succeeds ends [SafeClick] at once: success, one
    locate, one click, no delay. *)
Lemma SafeClick_first_attempt_success {W : Type} {RT : Runtime W}
    (page : Page) (selector : string) (opts : RodOptions)
    (fuel : nat) (s s1 : State W) :
  0 <= RetryCount opts ->
  SafeClick_body page selector opts 0 None s = Done (Return None) s1 ->
  SafeClick (S fuel) page selector (Some opts) s = Done None s1.
Proof.
  intros Hr H0. unfold SafeClick, or_default.
  now apply retry_loop_first_return.
Qed.

(** C2 (the code departs from the claim).  [lastErr] is never reset, and
    [SafeClick] returns success only when it is nil.  So when the first
    attempt fails and the second attempt passes every check and clicks,
    that pass does not return: [SafeClick] goes on through all
    [retryCount + 1] attempts and returns "all click attempts failed". *)
Theorem SafeClick_late_success_is_lost {W : Type} {RT : Runtime W}
    (ph : PageHandle) (selector : string) (opts : RodOptions)
    (fuel : nat) (s s1 s2 : State W) (e : error) :
  1 <= RetryCount opts < Int64.max_int ->
  (Z.to_nat (RetryCount opts) + 2 <= fuel)%nat ->
  SafeClick_body (Some ph) selector opts 0 None s = Done (Continue (Some e)) s1 ->
  SafeClick_body (Some ph) selector opts 1 None s1 = Done (Return None) s2 ->
  SafeClick_body (Some ph) selector opts 1 (Some e) s1
    = Done (Continue (Some e)) s2 /\
  exists l s',
    SafeClick fuel (Some ph) selector (Some opts) s
      = Done (Some (ErrWrap "all click attempts failed" (Some l))) s' /\
    attempts (trace s') = attempts (trace s) + (RetryCount opts + 1).
Proof.
  intros Hr Hf H0 H1. split.
  - now apply SafeClick_body_success_stale.
  - eapply SafeClick_after_first_failure; try eassumption. lia.
Qed.

(** Two retries; the element is missing on the first attempt and there on
    the second and the third.  Three locates and two clicks are made, and
    the call fails with the first attempt's error. *)
Lemma SafeClick_late_success_is_lost_witness :
  SafeClick 4 (Some 1%nat) "#go"
    (Some (mkRodOptions 5 7 2 9 true true true))
    (Script.start (Script.locating [inr (ErrNew "no such element"); inl 4%nat; inl 5%nat]))
  = Done (Some (ErrWrap "all click attempts failed"
                  (Some (ErrWrap "element not found" (Some (ErrNew "no such element"))))))
      {| world := Script.locating [];
         trace := [EvElement 1%nat "#go" 5;
                   EvSleep 9; EvElement 1%nat "#go" 5; EvWaitStable 4%nat 7;
                   EvClick 4%nat;
                   EvSleep 9; EvElement 1%nat "#go" 5; EvWaitStable 5%nat 7;
                   EvClick 5%nat] |}.
Proof.
  destruct (@SafeClick_late_success_is_lost Script.World Script.runtime
              1%nat "#go" (mkRodOptions 5 7 2 9 true true true) 4%nat
              (Script.start (Script.locating
                 [inr (ErrNew "no such element"); inl 4%nat; inl 5%nat]))
              {| world := Script.locating [inl 4%nat; inl 5%nat];
                 trace := [EvElement 1%nat "#go" 5] |}
              {| world := Script.locating [inl 5%nat];
                 trace := [EvElement 1%nat "#go" 5;
                           EvSleep 9; EvElement 1%nat "#go" 5;
                           EvWaitStable 4%nat 7; EvClick 4%nat] |}
              (ErrWrap "element not found" (Some (ErrNew "no such element"))))
    as (_ & l & s' & E & _).
  - unfold Int64.max_int. simpl. lia.
  - simpl. lia.
  - reflexivity.
  - reflexivity.
  - etransitivity; [exact E|]. vm_compute in E. inversion E. reflexivity.
Defined.

(** C5 (the code departs from the claim).  [SafeElement] returns
    [element, lastErr], and [lastErr] still holds the error of the failed
    attempt: when the first attempt fails and the second passes every
    enabled check, the element comes back together with that error. *)
Theorem SafeElement_late_success_carries_error {W : Type} {RT : Runtime W}
    (ph : PageHandle) (selector : string) (opts : RodOptions)
    (fuel : nat) (s s1 s2 : State W) (e : error) (el : Element) :
  1 <= RetryCount opts ->
  (2 <= fuel)%nat ->
  SafeElement_body (Some ph) selector opts 0 None s
    = Done (Continue (Some e)) s1 ->
  SafeElement_body (Some ph) selector opts 1 None s1
    = Done (Return (Some el, None)) s2 ->
  SafeElement fuel (Some ph) selector (Some opts) s
    = Done (Some el, Some e) s2.
Proof.
  intros Hr Hf H0 H1. eapply SafeElement_late_success; eassumption.
Qed.

(** The default policy; the element is missing on the first attempt only. *)
Lemma SafeElement_late_success_carries_error_witness :
  SafeElement 5 (Some 1%nat) "#go" (Some DefaultRodOptions)
    (Script.start (Script.locating [inr (ErrNew "no such element"); inl 4%nat]))
  = Done (Some 4%nat,
          Some (ErrWrap "element not found" (Some (ErrNew "no such element"))))
      {| world := Script.locating [];
         trace := [EvElement 1%nat "#go" 10000000000;
                   EvSleep 500000000; EvElement 1%nat "#go" 10000000000;
                   EvWaitVisible 4%nat; EvWaitStable 4%nat 200000000] |}.
Proof.
  apply (@SafeElement_late_success_carries_error Script.World Script.runtime
           1%nat "#go" DefaultRodOptions 5%nat
           (Script.start (Script.locating
              [inr (ErrNew "no such element"); inl 4%nat]))
           {| world := Script.locating [inl 4%nat];
              trace := [EvElement 1%nat "#go" 10000000000] |}).
  - simpl. lia.
  - lia.
  - reflexivity.
  - reflexivity.
Defined.

(** *** The operation wrapper *)

Lemma string_app_assoc (a b c : string) : ((a ++ b) ++ c = a ++ (b ++ c))%string.
Proof.
  induction a as [|ch a IH]; simpl; [reflexivity | now rewrite IH].
Qed.

Section Wrapper.
Context {W : Type} {RT : Runtime W}.
Variable DefaultScreenshotPath : string.
Variable DefaultTimeoutDuration : Time.Duration.

Lemma RodOperationWrapper_steps page operation wopts s :
  RodOperationWrapper DefaultScreenshotPath DefaultTimeoutDuration
    page operation wopts s =
  match timeLimit (Int64.mul (configured_timeout DefaultTimeoutDuration wopts)
                    Time.Second) operation s with
  | Done (Some e) s1 =>
      save_screenshot page
        (screenshot_file DefaultScreenshotPath wopts (rt_Now (world s)))
        (Some e) s1
  | Done None s1 => Done None s1
  | Panic s1 => Panic s1
  | OutOfFuel s1 => OutOfFuel s1
  end.
Proof.
  unfold RodOperationWrapper, save_screenshot, configured_timeout,
    screenshot_file, screenshot_dir.
  unfold bind at 1. unfold Now_Format. unfold bind at 1.
  change (fun w : W => operation w) with operation.
  destruct wopts as [[[t|] [p|] [n|]]|]; cbn [TimeoutDuration Path Name];
    match goal with
    | |- context [timeLimit ?t ?g s] =>
        destruct (timeLimit t g s) as [[e|] s1|s1|s1]
    end; try reflexivity;
    simpl; repeat rewrite string_app_assoc; reflexivity.
Qed.

End Wrapper.

(** *** Nil targets *)

(** [RodOperationWrapper] with a nil page: the operation is run and the
    screenshot directory is made before the page is touched; the call then
    returns the directory error or panics in [page.Screenshot]. *)
Lemma RodOperationWrapper_nil_page {W : Type} {RT : Runtime W}
    (DefaultScreenshotPath : string) (DefaultTimeoutDuration : Time.Duration)
    (operation : Operation W) (wopts : option RodOperationWrapperOptions)
    (s : State W) :
  exists limit dir s',
    trace s' = (trace s ++ [EvTimeLimit limit; EvMkdirAll dir])%list /\
    (RodOperationWrapper DefaultScreenshotPath DefaultTimeoutDuration
       None operation wopts s = Panic s' \/
     exists mkErr,
       RodOperationWrapper DefaultScreenshotPath DefaultTimeoutDuration
         None operation wopts s
       = Done (Some (ErrWrap "failed to create screenshot directory" (Some mkErr))) s').
Proof.
  rewrite RodOperationWrapper_steps.
  destruct (timeLimit_never_nil
              (Int64.mul (configured_timeout DefaultTimeoutDuration wopts) Time.Second)
              operation s) as (e & E).
  rewrite E. unfold save_screenshot. open_body.
  match goal with
  | |- context [rt_MkdirAll ?d ?w] => destruct (rt_MkdirAll d w) as [[m|] w2]
  end; simpl.
  - do 3 eexists. split; [|right; eexists; reflexivity].
    cbn [trace]. rewrite <- app_assoc. reflexivity.
  - do 3 eexists. split; [|left; reflexivity].
    cbn [trace]. rewrite <- app_assoc. reflexivity.
Qed.

(** C3 (the code departs from the claim).  [SafeElement] checks its page
    and returns "rod.Page is nil" with nothing called.  [SafeClick] has no
    such check: with a nil page its first attempt dereferences the page
    and panics, so no error is returned at all.  [RodOperationWrapper] has
    none either: it runs the operation and makes the directory first, and
    what it returns is never the precondition error. *)
Theorem nil_page_entry_points {W : Type} {RT : Runtime W}
    (DefaultScreenshotPath : string) (DefaultTimeoutDuration : Time.Duration)
    (fuel : nat) (selector : string) (opts : option RodOptions)
    (operation : Operation W) (wopts : option RodOperationWrapperOptions)
    (s : State W) :
  0 <= RetryCount (or_default opts) ->
  SafeElement fuel None selector opts s
    = Done (None, Some (ErrNew "rod.Page is nil")) s /\
  SafeClick (S fuel) None selector opts s = Panic s /\
  (forall s', RodOperationWrapper DefaultScreenshotPath DefaultTimeoutDuration
                None operation wopts s
              <> Done (Some (ErrNew "rod.Page is nil")) s') /\
  count (fun _ => true)
    (trace (final_state
       (RodOperationWrapper DefaultScreenshotPath DefaultTimeoutDuration
          None operation wopts s)))
  = count (fun _ => true) (trace s) + 2.
Proof.
  intros Hr. split; [reflexivity|]. split; [|split].
  - unfold SafeClick. rewrite retry_loop_unfold.
    destruct (0 <=? RetryCount (or_default opts)) eqn:L;
      [|apply Z.leb_gt in L; lia].
    reflexivity.
  - intros s0.
    destruct (RodOperationWrapper_nil_page DefaultScreenshotPath
                DefaultTimeoutDuration operation wopts s)
      as (limit & dir & s' & _ & [E | (m & E)]);
      rewrite E; discriminate.
  - destruct (RodOperationWrapper_nil_page DefaultScreenshotPath
                DefaultTimeoutDuration operation wopts s)
      as (limit & dir & s' & Ht & [E | (m & E)]);
      rewrite E; simpl; rewrite Ht, count_app; reflexivity.
Qed.

(** [SafeClick(nil, "#go", nil)]: a panic; [SafeElement(nil, "#go", nil)]:
    the precondition error. *)
Lemma nil_page_entry_points_witness :
  SafeElement 5 None "#go" None (Script.start (Script.locating [inl 4%nat]))
    = Done (None, Some (ErrNew "rod.Page is nil"))
        (Script.start (Script.locating [inl 4%nat])) /\
  SafeClick 5 None "#go" None (Script.start (Script.locating [inl 4%nat]))
    = Panic (Script.start (Script.locating [inl 4%nat])).
Proof.
  destruct (@nil_page_entry_points Script.World Script.runtime "shots" 30
              4%nat "#go" None (Script.op (Some 1) None) None
              (Script.start (Script.locating [inl 4%nat])))
    as (He & Hc & _).
  - simpl. lia.
  - split; [exact He | exact Hc].
Defined.

(** *** Screenshot on failure *)

(** C7 (amended).  When the operation fails with [e] before the deadline,
    which is [TimeoutDuration] times [time.Second] in 64-bit arithmetic:
    if the directory is made, the page captured and the file written, a
    PNG screenshot is written to [<dir>/<name>_<timestamp>.png] (or
    [<dir>/<timestamp>.png] without a name) and [e] itself is returned; if
    making the directory, capturing the page or writing the file fails,
    the error of that step alone is returned, in the place of [e]. *)
Theorem RodOperationWrapper_on_failure {W : Type} {RT : Runtime W}
    (DefaultScreenshotPath : string) (DefaultTimeoutDuration : Time.Duration)
    (ph : PageHandle) (operation : Operation W)
    (wopts : option RodOperationWrapperOptions)
    (s : State W) (d : Time.Duration) (e : error) :
  let limit := Int64.mul (configured_timeout DefaultTimeoutDuration wopts)
                 Time.Second in
  let file := screenshot_file DefaultScreenshotPath wopts (rt_Now (world s)) in
  let ran := op_world (operation (world s)) in
  let result := RodOperationWrapper DefaultScreenshotPath DefaultTimeoutDuration
                  (Some ph) operation wopts s in
  op_elapsed (operation (world s)) = Some d ->
  op_result (operation (world s)) = Some e ->
  d < Z.max 0 limit ->
  (forall w2 data w3 w4,
      rt_MkdirAll (rt_Dir file) ran = (None, w2) ->
      rt_Screenshot ph w2 = (inl data, w3) ->
      rt_WriteFile file data w3 = (None, w4) ->
      result = Done (Some e)
                 {| world := w4;
                    trace := trace s ++ [EvTimeLimit limit;
                                         EvMkdirAll (rt_Dir file);
                                         EvScreenshot ph;
                                         EvWriteFile file data] |}) /\
  (forall mkErr w2,
      rt_MkdirAll (rt_Dir file) ran = (Some mkErr, w2) ->
      result = Done (Some (ErrWrap "failed to create screenshot directory"
                             (Some mkErr)))
                 {| world := w2;
                    trace := trace s ++ [EvTimeLimit limit;
                                         EvMkdirAll (rt_Dir file)] |}) /\
  (forall w2 screenErr w3,
      rt_MkdirAll (rt_Dir file) ran = (None, w2) ->
      rt_Screenshot ph w2 = (inr screenErr, w3) ->
      result = Done (Some (ErrWrap "failed to capture screenshot"
                             (Some screenErr)))
                 {| world := w3;
                    trace := trace s ++ [EvTimeLimit limit;
                                         EvMkdirAll (rt_Dir file);
                                         EvScreenshot ph] |}) /\
  (forall w2 data w3 fileErr w4,
      rt_MkdirAll (rt_Dir file) ran = (None, w2) ->
      rt_Screenshot ph w2 = (inl data, w3) ->
      rt_WriteFile file data w3 = (Some fileErr, w4) ->
      result = Done (Some (ErrNew ("failed to save screenshot: " ++ Error fileErr)))
                 {| world := w4;
                    trace := trace s ++ [EvTimeLimit limit;
                                         EvMkdirAll (rt_Dir file);
                                         EvScreenshot ph;
                                         EvWriteFile file data] |}).
Proof.
  intros limit file ran result Hd He Hlt. subst result.
  rewrite RodOperationWrapper_steps. fold limit.
  rewrite (timeLimit_error_before_deadline limit operation s d e Hd He Hlt).
  fold file. fold ran. unfold save_screenshot. open_body.
  split; [|split; [|split]].
  - intros w2 data w3 w4 Hm Hs Hw. rewrite Hm. simpl. rewrite Hs. simpl.
    rewrite Hw. simpl. repeat rewrite <- app_assoc. reflexivity.
  - intros m w2 Hm. rewrite Hm. simpl. repeat rewrite <- app_assoc. reflexivity.
  - intros w2 c w3 Hm Hs. rewrite Hm. simpl. rewrite Hs. simpl.
    repeat rewrite <- app_assoc. reflexivity.
  - intros w2 data w3 f w4 Hm Hs Hw. rewrite Hm. simpl. rewrite Hs. simpl.
    rewrite Hw. simpl. repeat rewrite <- app_assoc. reflexivity.
Qed.

(** The operation fails with "boom" after five nanoseconds, with a limit
    of thirty seconds and the name "login". *)
Lemma RodOperationWrapper_on_failure_witness :
  RodOperationWrapper "shots" 30 (Some 1%nat) (Script.op (Some 5) (Some boom))
    (Some (mkWrapperOptions None None (Some "login")))
    (Script.start (Script.locating []))
  = Done (Some boom)
      {| world := Script.locating [];
         trace := [EvTimeLimit 30000000000;
                   EvMkdirAll "shots";
                   EvScreenshot 1%nat;
                   EvWriteFile "shots/login_2024-05-01_12-00-00.png"
                     Script.png_magic] |}.
Proof.
  destruct (@RodOperationWrapper_on_failure Script.World Script.runtime
              "shots" 30 1%nat (Script.op (Some 5) (Some boom))
              (Some (mkWrapperOptions None None (Some "login")))
              (Script.start (Script.locating [])) 5 boom
              eq_refl eq_refl eq_refl) as (Hok & _).
  exact (Hok (Script.locating []) Script.png_magic (Script.locating [])
             (Script.locating []) eq_refl eq_refl eq_refl).
Defined.

(** C7 as stated fails: with a directory that cannot be made, what comes
    back is the directory error; the operation's error "boom" is neither
    it nor wrapped in it, and an operation failing with another error
    gives the very same result. *)
Lemma directory_error_masks_operation_error :
  let returned :=
    ErrWrap "failed to create screenshot directory"
      (Some (ErrNew "mkdir shots: permission denied")) in
  RodOperationWrapper "shots" 30 (Some 1%nat) (Script.op (Some 5) (Some boom))
    None (Script.start read_only)
  = Done (Some returned)
      {| world := Script.locating [];
         trace := [EvTimeLimit 30000000000; EvMkdirAll "shots"] |} /\
  errors_Is returned boom = false /\
  Error returned
  = "failed to create screenshot directory: mkdir shots: permission denied" /\
  RodOperationWrapper "shots" 30 (Some 1%nat)
    (Script.op (Some 5) (Some (ErrNew "bang")))
    None (Script.start read_only)
  = RodOperationWrapper "shots" 30 (Some 1%nat)
      (Script.op (Some 5) (Some boom))
      None (Script.start read_only).
Proof. repeat split. Qed.

(** *** The deadline of the wrapper *)

(** C10 (amended).  The deadline handed to [timeLimit] is the configured
    [TimeoutDuration] (the default when none is given) times [time.Second]
    in 64-bit arithmetic: [TimeoutDuration * 10^9] nanoseconds, the value
    read as a count of seconds, when the product fits, that is for
    [|TimeoutDuration| <= 9223372036]; the product wrapped around
    otherwise. *)
Theorem RodOperationWrapper_deadline {W : Type} {RT : Runtime W}
    (DefaultScreenshotPath : string) (DefaultTimeoutDuration : Time.Duration)
    (page : Page) (operation : Operation W)
    (wopts : option RodOperationWrapperOptions) (s : State W) :
  let t := configured_timeout DefaultTimeoutDuration wopts in
  let limit := if Z.abs t <=? 9223372036 then t * 1000000000
               else Int64.wrap (t * 1000000000) in
  exists rest,
    trace (final_state
             (RodOperationWrapper DefaultScreenshotPath DefaultTimeoutDuration
                page operation wopts s))
    = (trace s ++ EvTimeLimit limit :: rest)%list.
Proof.
  intros t limit.
  assert (Hl : Int64.mul t Time.Second = limit).
  { subst limit. unfold Int64.mul. change Time.Second with 1000000000.
    destruct (Z.abs t <=? 9223372036) eqn:L; [|reflexivity].
    apply Z.leb_le in L. apply Int64_wrap_small.
    unfold Int64.in_range, Int64.min_int, Int64.max_int. lia. }
  rewrite RodOperationWrapper_steps. fold t. rewrite Hl.
  destruct (timeLimit_never_nil limit operation s) as (e & E). rewrite E.
  unfold save_screenshot. destruct page; open_body; split_answers;
    eexists; cbn [trace]; repeat rewrite <- app_assoc; reflexivity.
Qed.

(** C10 as stated fails for an actual duration of ten seconds:
    [10^10 * 10^9] does not fit in 64 bits, and the deadline handed to the
    runner is negative, not ten billion seconds. *)
Lemma ten_seconds_wrap_around :
  hd_error
    (trace (final_state
       (RodOperationWrapper "shots" 30 (Some 1%nat)
          (Script.op (Some 5) (Some boom))
          (Some (mkWrapperOptions (Some (10 * Time.Second)) None None))
          (Script.start (Script.locating [])))))
  = Some (EvTimeLimit (-8446744073709551616)) /\
  -8446744073709551616 <> (10 * Time.Second) * Time.Second.
Proof. split; [reflexivity | discriminate]. Qed.

(** *** Waits between locate and action *)

(** C4 (amended).  After a successful locate, [SafeElement] waits for
    visibility exactly when [mustVisible] is set, directly after the locate
    and before any stability wait, and waits for stability only when
    [mustStable] is set; with both flags off it returns the element at
    once, and nowhere in the call is a wait made that the policy does not
    ask for.  [SafeClick] reads neither flag: after a successful locate it
    always waits for stability before the click, and it never waits for
    visibility. *)
Theorem waits_of_an_attempt {W : Type} {RT : Runtime W}
    (ph : PageHandle) (selector : string) (opts : RodOptions)
    (fuel : nat) (i : Z) (l : option error) (s : State W)
    (el : Element) (w1 : W) :
  rt_Element ph selector (Timeout opts) (world (after_delay opts i s)) = (inl el, w1) ->
  let located := log (EvElement ph selector (Timeout opts)) w1 (after_delay opts i s) in
  (exists stab,
     trace (final_state (SafeElement_body (Some ph) selector opts i l s))
     = (trace located
        ++ (if MustVisible opts then [EvWaitVisible el] else [])
        ++ stab)%list /\
     (stab = [] \/
      (MustStable opts = true /\ stab = [EvWaitStable el (StableDuration opts)]))) /\
  (MustVisible opts = false -> MustStable opts = false ->
   SafeElement_body (Some ph) selector opts i l s
   = Done (Return (Some el, l)) located) /\
  extends_with (wait_is_enabled opts) s
    (final_state (SafeElement fuel (Some ph) selector (Some opts) s)) /\
  (exists rest,
     trace (final_state (SafeClick_body (Some ph) selector opts i l s))
     = (trace located ++ EvWaitStable el (StableDuration opts) :: rest)%list /\
     (rest = [] \/ rest = [EvClick el])) /\
  extends_with (fun ev => is_visible_wait ev = false) s
    (final_state (SafeClick fuel (Some ph) selector (Some opts) s)).
Proof.
  intros Hloc located.
  assert (He : forall A (k : (Element + error) -> M W A),
             bind (if 0 <? i then Sleep (RetryDelay opts) else ret tt)
               (fun _ => bind (page_Element (Some ph) selector (Timeout opts)) k) s
             = k (inl el) located).
  { intros A k. unfold bind, page_Element, after_delay in *.
    destruct (0 <? i); simpl in *; rewrite Hloc; reflexivity. }
  split; [|split; [|split; [|split]]].
  - unfold SafeElement_body. rewrite He.
    destruct (MustVisible opts); destruct (MustStable opts); open_body;
      split_answers;
      eexists; (split; [repeat rewrite <- app_assoc; reflexivity|]); auto.
  - intros Hv Hs. unfold SafeElement_body. rewrite He, Hv, Hs. reflexivity.
  - unfold SafeElement, or_default. apply retry_loop_trace.
    intros. apply SafeElement_body_waits_enabled.
  - unfold SafeClick_body. rewrite He. open_body; split_answers;
      eexists; (split; [repeat rewrite <- app_assoc; reflexivity|]); auto.
  - unfold SafeClick, or_default. apply retry_loop_trace.
    intros. apply SafeClick_body_no_visible_wait.
Qed.

(** Both flags off, the element found at the first attempt: [SafeElement]
    returns it after the locate alone. *)
Lemma waits_of_an_attempt_witness :
  SafeElement_body (Some 1%nat) "#go" (mkRodOptions 5 7 0 9 false false false)
    0 None (Script.start (Script.locating [inl 4%nat]))
  = Done (Return (Some 4%nat, None))
      {| world := Script.locating []; trace := [EvElement 1%nat "#go" 5] |}.
Proof.
  destruct (@waits_of_an_attempt Script.World Script.runtime 1%nat "#go"
              (mkRodOptions 5 7 0 9 false false false) 2%nat 0 None
              (Script.start (Script.locating [inl 4%nat]))
              4%nat (Script.locating []) eq_refl)
    as (_ & Hnow & _).
  exact (Hnow eq_refl eq_refl).
Defined.

(** C4 as stated fails for [SafeClick].  With [mustVisible] and
    [mustStable] both off it still waits for stability between the locate
    and the click; and with the default policy, where [mustVisible] is on,
    it makes no visibility wait. *)
Lemma SafeClick_ignores_the_flags :
  let off := mkRodOptions 5 7 0 9 false false false in
  MustVisible off = false /\ MustStable off = false /\
  SafeClick 2 (Some 1%nat) "#go" (Some off)
    (Script.start (Script.locating [inl 4%nat]))
  = Done None
      {| world := Script.locating [];
         trace := [EvElement 1%nat "#go" 5; EvWaitStable 4%nat 7; EvClick 4%nat] |} /\
  MustVisible DefaultRodOptions = true /\
  SafeClick 5 (Some 1%nat) "#go" (Some DefaultRodOptions)
    (Script.start (Script.locating [inl 4%nat]))
  = Done None
      {| world := Script.locating [];
         trace := [EvElement 1%nat "#go" 10000000000;
                   EvWaitStable 4%nat 200000000; EvClick 4%nat] |}.
Proof. repeat split. Qed.

(** ** Further properties of the retry loop, the runner and the wrapper *)

Section MoreLoopFacts.
Context {W : Type} {RT : Runtime W}.
Context {A : Type}.
Variable retryCount : Z.
Variable body : Z -> option error -> M W (Ctl A).
Variable exhausted : option error -> A.

(** What holds of every result reached with [lastErr] set holds of the
    result of the loop entered with [lastErr] set. *)
Lemma retry_loop_from_error (Q : A -> Prop) :
  (forall j l s r s', body j (Some l) s = Done (Return r) s' -> Q r) ->
  (forall j l s l' s', body j (Some l) s = Done (Continue l') s' -> l' <> None) ->
  (forall l, Q (exhausted (Some l))) ->
  forall fuel i l s r s',
    retry_loop fuel retryCount body exhausted i (Some l) s = Done r s' -> Q r.
Proof.
  intros Hret Hcont Hex. induction fuel as [|fuel IH]; intros i l s r s' H.
  - discriminate.
  - rewrite retry_loop_unfold in H. destruct (i <=? retryCount).
    + destruct (body i (Some l) s) as [[l'|r0] s1|s1|s1] eqn:E; try discriminate.
      * destruct l' as [x|]; [|exfalso; eapply Hcont; eauto].
        eapply IH; eassumption.
      * inversion H; subst. eapply Hret; eassumption.
    + inversion H; subst. apply Hex.
Qed.

End MoreLoopFacts.

Section MoreBodyFacts.
Context {W : Type} {RT : Runtime W}.
Variable selector : string.
Variable opts : RodOptions.

Lemma SafeClick_body_continue_is_error page i s l' s' :
  SafeClick_body page selector opts i None s = Done (Continue l') s' ->
  l' <> None.
Proof.
  unfold SafeClick_body. intros H. destruct page; open_body;
    destruct (0 <? i); simpl in *; split_answers; discriminate.
Qed.

Lemma SafeElement_body_continue_is_error p i l s l' s' :
  SafeElement_body p selector opts i l s = Done (Continue l') s' ->
  l' <> None.
Proof.
  unfold SafeElement_body. intros H. destruct p; open_body;
    destruct (0 <? i); simpl in *; split_answers; discriminate.
Qed.

Lemma SafeElement_body_return_keeps_error p i l s r s' :
  SafeElement_body p selector opts i l s = Done (Return r) s' ->
  snd r = l /\ fst r <> None.
Proof.
  unfold SafeElement_body. intros H. destruct p; open_body;
    destruct (0 <? i); simpl in *; split_answers; split; (reflexivity || discriminate).
Qed.

Lemma SafeClick_body_delays page i l s c s' :
  SafeClick_body page selector opts i l s = Done c s' ->
  count is_sleep (trace s') = count is_sleep (trace s) + (if 0 <? i then 1 else 0).
Proof.
  unfold SafeClick_body. intros H. destruct page; open_body;
    destruct (0 <? i); simpl in *; split_answers; cbn [trace world];
    repeat rewrite count_app; unfold count; simpl; lia.
Qed.

Lemma SafeElement_body_delays p i l s c s' :
  SafeElement_body p selector opts i l s = Done c s' ->
  count is_sleep (trace s') = count is_sleep (trace s) + (if 0 <? i then 1 else 0).
Proof.
  unfold SafeElement_body. intros H. destruct p; open_body;
    destruct (0 <? i); simpl in *; split_answers; cbn [trace world];
    repeat rewrite count_app; unfold count; simpl; lia.
Qed.

Lemma SafeElement_body_events ph i l s :
  extends_with (SafeElement_event ph selector opts) s
    (final_state (SafeElement_body (Some ph) selector opts i l s)).
Proof.
  unfold SafeElement_body.
  destruct (MustVisible opts) eqn:Hv; destruct (MustStable opts) eqn:Hs;
    open_body; destruct (0 <? i); simpl in *; split_answers;
    first [ exists []; split; [now rewrite app_nil_r | constructor]
          | eexists; split;
            [ cbn [trace world]; repeat rewrite <- app_assoc; reflexivity
            | repeat constructor; simpl; auto ] ].
Qed.

Lemma SafeClick_body_events ph i l s :
  extends_with (SafeClick_event ph selector opts) s
    (final_state (SafeClick_body (Some ph) selector opts i l s)).
Proof.
  unfold SafeClick_body.
  open_body; destruct (0 <? i); simpl in *; split_answers;
    first [ exists []; split; [now rewrite app_nil_r | constructor]
          | eexists; split;
            [ cbn [trace world]; repeat rewrite <- app_assoc; reflexivity
            | repeat constructor; simpl; auto ] ].
Qed.

End MoreBodyFacts.

(** *** The bounded runner, error and deadline *)

(** X1. An error that the operation returns before the deadline is what
    [timeLimit] returns, as it is. *)
Theorem timeLimit_passes_early_error {W : Type} {RT : Runtime W}
    (timeout d : Time.Duration) (f : Operation W) (s : State W) (err : error) :
  op_elapsed (f (world s)) = Some d ->
  op_result (f (world s)) = Some err ->
  d < Z.max 0 timeout ->
  timeLimit timeout f s
  = Done (Some err) (log (EvTimeLimit timeout) (op_world (f (world s))) s).
Proof. intros Hd He Hlt. eapply timeLimit_error_before_deadline; eassumption. Qed.

(** "boom" after five nanoseconds, within a deadline of one second. *)
Lemma timeLimit_passes_early_error_witness :
  timeLimit Time.Second (Script.op (Some 5) (Some boom))
    (Script.start (Script.locating []))
  = Done (Some boom)
      {| world := Script.locating []; trace := [EvTimeLimit 1000000000] |}.
Proof.
  apply (@timeLimit_passes_early_error Script.World Script.runtime
           Time.Second 5 (Script.op (Some 5) (Some boom))
           (Script.start (Script.locating [])) boom);
    reflexivity.
Defined.

(** X2. An operation that is still running when the deadline passes, one
    that never returns included, gives the timeout error, whatever it
    would have returned. *)
Theorem timeLimit_abandons_late_operation {W : Type} {RT : Runtime W}
    (timeout : Time.Duration) (f : Operation W) (s : State W) :
  (forall d, op_elapsed (f (world s)) = Some d -> Z.max 0 timeout < d) ->
  timeLimit timeout f s
  = Done (Some timeout_error)
      (log (EvTimeLimit timeout) (op_world (f (world s))) s) /\
  Error timeout_error = "operation timed out: context deadline exceeded" /\
  Unwrap timeout_error = None.
Proof.
  intros Hlate. split; [|split; reflexivity].
  now apply timeLimit_deadline_first.
Qed.

(** An operation that blocks forever, and one that fails after two
    seconds, under a deadline of one second. *)
Lemma timeLimit_abandons_late_operation_witness :
  timeLimit Time.Second (Script.op None (Some boom))
    (Script.start (Script.locating []))
  = Done (Some timeout_error)
      {| world := Script.locating []; trace := [EvTimeLimit 1000000000] |} /\
  timeLimit Time.Second (Script.op (Some (2 * Time.Second)) (Some boom))
    (Script.start (Script.locating []))
  = Done (Some timeout_error)
      {| world := Script.locating []; trace := [EvTimeLimit 1000000000] |}.
Proof.
  split.
  - apply (@timeLimit_abandons_late_operation Script.World Script.runtime
             Time.Second (Script.op None (Some boom))
             (Script.start (Script.locating []))).
    intros d H. discriminate H.
  - apply (@timeLimit_abandons_late_operation Script.World Script.runtime
             Time.Second (Script.op (Some (2 * Time.Second)) (Some boom))
             (Script.start (Script.locating []))).
    intros d H. inversion H. reflexivity.
Defined.

(** *** The wrapper: what it returns and when it writes *)

Section MoreWrapper.
Context {W : Type} {RT : Runtime W}.
Variable DefaultScreenshotPath : string.
Variable DefaultTimeoutDuration : Time.Duration.

(** After a failed run, with the directory made, the page captured and
    the file written, the error of the run is returned. *)
Lemma RodOperationWrapper_io_ok ph operation wopts s s1 e w2 data w3 w4 :
  timeLimit (Int64.mul (configured_timeout DefaultTimeoutDuration wopts) Time.Second)
    operation s = Done (Some e) s1 ->
  rt_MkdirAll
    (rt_Dir (screenshot_file DefaultScreenshotPath wopts (rt_Now (world s))))
    (world s1) = (None, w2) ->
  rt_Screenshot ph w2 = (inl data, w3) ->
  rt_WriteFile (screenshot_file DefaultScreenshotPath wopts (rt_Now (world s)))
    data w3 = (None, w4) ->
  RodOperationWrapper DefaultScreenshotPath DefaultTimeoutDuration
    (Some ph) operation wopts s
  = Done (Some e)
      {| world := w4;
         trace := trace s1
                  ++ [EvMkdirAll
                        (rt_Dir (screenshot_file DefaultScreenshotPath wopts
                                   (rt_Now (world s))));
                      EvScreenshot ph;
                      EvWriteFile
                        (screenshot_file DefaultScreenshotPath wopts
                           (rt_Now (world s))) data] |}.
Proof.
  intros Hfail Hm Hs Hw. rewrite RodOperationWrapper_steps, Hfail.
  unfold save_screenshot. open_body. rewrite Hm. simpl. rewrite Hs. simpl.
  rewrite Hw. simpl. repeat rewrite <- app_assoc. reflexivity.
Qed.

End MoreWrapper.

(** X3. [RodOperationWrapper] never returns nil: whatever the operation,
    the page and the options, the run counts as failed, the screenshot
    directory is made, and the call ends with an error or a panic. *)
Theorem RodOperationWrapper_never_returns_nil {W : Type} {RT : Runtime W}
    (DefaultScreenshotPath : string) (DefaultTimeoutDuration : Time.Duration)
    (page : Page) (operation : Operation W)
    (wopts : option RodOperationWrapperOptions) (s : State W) :
  (forall s', RodOperationWrapper DefaultScreenshotPath DefaultTimeoutDuration
                page operation wopts s <> Done None s') /\
  exists rest,
    trace (final_state
             (RodOperationWrapper DefaultScreenshotPath DefaultTimeoutDuration
                page operation wopts s))
    = (trace s
       ++ EvTimeLimit
            (Int64.mul (configured_timeout DefaultTimeoutDuration wopts) Time.Second)
       :: EvMkdirAll
            (rt_Dir (screenshot_file DefaultScreenshotPath wopts (rt_Now (world s))))
       :: rest)%list.
Proof.
  rewrite RodOperationWrapper_steps.
  destruct (timeLimit_never_nil
              (Int64.mul (configured_timeout DefaultTimeoutDuration wopts) Time.Second)
              operation s) as (e & E).
  rewrite E. unfold save_screenshot. split.
  - intros s'. destruct page; open_body; split_answers; discriminate.
  - destruct page; open_body; split_answers;
      eexists; cbn [trace]; repeat rewrite <- app_assoc; reflexivity.
Qed.

(** X4. An operation that succeeds is reported as timed out, and a
    screenshot of the page is written for it. *)
Theorem RodOperationWrapper_success_is_screenshot {W : Type} {RT : Runtime W}
    (DefaultScreenshotPath : string) (DefaultTimeoutDuration : Time.Duration)
    (ph : PageHandle) (operation : Operation W)
    (wopts : option RodOperationWrapperOptions) (s : State W)
    (w2 w3 w4 : W) (data : Bytes) :
  let limit := Int64.mul (configured_timeout DefaultTimeoutDuration wopts)
                 Time.Second in
  let file := screenshot_file DefaultScreenshotPath wopts (rt_Now (world s)) in
  op_result (operation (world s)) = None ->
  rt_MkdirAll (rt_Dir file) (op_world (operation (world s))) = (None, w2) ->
  rt_Screenshot ph w2 = (inl data, w3) ->
  rt_WriteFile file data w3 = (None, w4) ->
  RodOperationWrapper DefaultScreenshotPath DefaultTimeoutDuration
    (Some ph) operation wopts s
  = Done (Some timeout_error)
      {| world := w4;
         trace := trace s ++ [EvTimeLimit limit; EvMkdirAll (rt_Dir file);
                              EvScreenshot ph; EvWriteFile file data] |}.
Proof.
  intros limit file Hok Hm Hs Hw.
  assert (E : timeLimit limit operation s
              = Done (Some timeout_error)
                  (log (EvTimeLimit limit) (op_world (operation (world s))) s)).
  { unfold timeLimit. rewrite Hok.
    destruct (op_elapsed (operation (world s))); reflexivity. }
  rewrite (RodOperationWrapper_io_ok DefaultScreenshotPath DefaultTimeoutDuration
             ph operation wopts s _ _ w2 data w3 w4 E Hm Hs Hw).
  unfold log. cbn [trace world]. rewrite <- app_assoc. reflexivity.
Qed.

(** An operation that succeeds after five nanoseconds, with no options. *)
Lemma RodOperationWrapper_success_is_screenshot_witness :
  RodOperationWrapper "shots" 30 (Some 1%nat) (Script.op (Some 5) None) None
    (Script.start (Script.locating []))
  = Done (Some (ErrNew "operation timed out: context deadline exceeded"))
      {| world := Script.locating [];
         trace := [EvTimeLimit 30000000000; EvMkdirAll "shots";
                   EvScreenshot 1%nat;
                   EvWriteFile "shots/2024-05-01_12-00-00.png" Script.png_magic] |}.
Proof.
  apply (@RodOperationWrapper_success_is_screenshot Script.World Script.runtime
           "shots" 30 1%nat (Script.op (Some 5) None) None
           (Script.start (Script.locating []))
           (Script.locating []) (Script.locating []) (Script.locating [])
           Script.png_magic);
    reflexivity.
Defined.

(** X5. When the page cannot be captured, the capture error is returned,
    wrapped, in the place of the error of the run, and no file is
    written. *)
Theorem RodOperationWrapper_capture_failure {W : Type} {RT : Runtime W}
    (DefaultScreenshotPath : string) (DefaultTimeoutDuration : Time.Duration)
    (ph : PageHandle) (operation : Operation W)
    (wopts : option RodOperationWrapperOptions) (s s1 : State W)
    (e screenErr : error) (w2 w3 : W) :
  let file := screenshot_file DefaultScreenshotPath wopts (rt_Now (world s)) in
  timeLimit (Int64.mul (configured_timeout DefaultTimeoutDuration wopts) Time.Second)
    operation s = Done (Some e) s1 ->
  rt_MkdirAll (rt_Dir file) (world s1) = (None, w2) ->
  rt_Screenshot ph w2 = (inr screenErr, w3) ->
  RodOperationWrapper DefaultScreenshotPath DefaultTimeoutDuration
    (Some ph) operation wopts s
  = Done (Some (ErrWrap "failed to capture screenshot" (Some screenErr)))
      {| world := w3;
         trace := trace s1 ++ [EvMkdirAll (rt_Dir file); EvScreenshot ph] |} /\
  Unwrap (ErrWrap "failed to capture screenshot" (Some screenErr)) = Some screenErr.
Proof.
  intros file Hfail Hm Hs. split; [|reflexivity].
  rewrite RodOperationWrapper_steps, Hfail. fold file.
  unfold save_screenshot. open_body. rewrite Hm. simpl. rewrite Hs. simpl.
  repeat rewrite <- app_assoc. reflexivity.
Qed.

(** X6. A configured timeout whose product with [time.Second] is zero or
    negative, zero itself or one that wraps around, has passed before the
    operation starts: an operation that takes any time at all is reported
    as timed out, its own error dropped. *)
Theorem RodOperationWrapper_nonpositive_deadline {W : Type} {RT : Runtime W}
    (DefaultScreenshotPath : string) (DefaultTimeoutDuration : Time.Duration)
    (ph : PageHandle) (operation : Operation W)
    (wopts : option RodOperationWrapperOptions) (s : State W)
    (w2 w3 w4 : W) (data : Bytes) :
  let limit := Int64.mul (configured_timeout DefaultTimeoutDuration wopts)
                 Time.Second in
  let file := screenshot_file DefaultScreenshotPath wopts (rt_Now (world s)) in
  limit <= 0 ->
  (forall d, op_elapsed (operation (world s)) = Some d -> 0 < d) ->
  rt_MkdirAll (rt_Dir file) (op_world (operation (world s))) = (None, w2) ->
  rt_Screenshot ph w2 = (inl data, w3) ->
  rt_WriteFile file data w3 = (None, w4) ->
  RodOperationWrapper DefaultScreenshotPath DefaultTimeoutDuration
    (Some ph) operation wopts s
  = Done (Some timeout_error)
      {| world := w4;
         trace := trace s ++ [EvTimeLimit limit; EvMkdirAll (rt_Dir file);
                              EvScreenshot ph; EvWriteFile file data] |}.
Proof.
  intros limit file Hl Hd Hm Hs Hw.
  assert (E : timeLimit limit operation s
              = Done (Some timeout_error)
                  (log (EvTimeLimit limit) (op_world (operation (world s))) s)).
  { apply timeLimit_deadline_first. intros d H. specialize (Hd d H). lia. }
  rewrite (RodOperationWrapper_io_ok DefaultScreenshotPath DefaultTimeoutDuration
             ph operation wopts s _ _ w2 data w3 w4 E Hm Hs Hw).
  unfold log. cbn [trace world]. rewrite <- app_assoc. reflexivity.
Qed.

(** "boom" after five nanoseconds: lost with a [TimeoutDuration] of zero,
    and lost with one of ten seconds. *)
Lemma RodOperationWrapper_nonpositive_deadline_witness :
  RodOperationWrapper "shots" 30 (Some 1%nat) (Script.op (Some 5) (Some boom))
    (Some (mkWrapperOptions (Some 0) None None))
    (Script.start (Script.locating []))
  = Done (Some timeout_error)
      {| world := Script.locating [];
         trace := [EvTimeLimit 0; EvMkdirAll "shots"; EvScreenshot 1%nat;
                   EvWriteFile "shots/2024-05-01_12-00-00.png" Script.png_magic] |} /\
  RodOperationWrapper "shots" 30 (Some 1%nat) (Script.op (Some 5) (Some boom))
    (Some (mkWrapperOptions (Some (10 * Time.Second)) None None))
    (Script.start (Script.locating []))
  = Done (Some timeout_error)
      {| world := Script.locating [];
         trace := [EvTimeLimit (-8446744073709551616); EvMkdirAll "shots";
                   EvScreenshot 1%nat;
                   EvWriteFile "shots/2024-05-01_12-00-00.png" Script.png_magic] |}.
Proof.
  split.
  - apply (@RodOperationWrapper_nonpositive_deadline Script.World Script.runtime
             "shots" 30 1%nat (Script.op (Some 5) (Some boom))
             (Some (mkWrapperOptions (Some 0) None None))
             (Script.start (Script.locating []))
             (Script.locating []) (Script.locating []) (Script.locating [])
             Script.png_magic);
      first [ reflexivity
            | intros d H; inversion H; reflexivity
            | vm_compute; intro H; discriminate H ].
  - apply (@RodOperationWrapper_nonpositive_deadline Script.World Script.runtime
             "shots" 30 1%nat (Script.op (Some 5) (Some boom))
             (Some (mkWrapperOptions (Some (10 * Time.Second)) None None))
             (Script.start (Script.locating []))
             (Script.locating []) (Script.locating []) (Script.locating [])
             Script.png_magic);
      first [ reflexivity
            | intros d H; inversion H; reflexivity
            | vm_compute; intro H; discriminate H ].
Defined.

(** A scripted world in which the page cannot be captured. *)
Lemma RodOperationWrapper_capture_failure_witness :
  RodOperationWrapper "shots" 30 (Some 1%nat) (Script.op (Some 5) (Some boom)) None
    (Script.start
       (Script.mkWorld [] [] [] [] [] [inr (ErrNew "target closed")] []
          "2024-05-01_12-00-00" true))
  = Done (Some (ErrWrap "failed to capture screenshot"
                  (Some (ErrNew "target closed"))))
      {| world := Script.locating [];
         trace := [EvTimeLimit 30000000000; EvMkdirAll "shots";
                   EvScreenshot 1%nat] |}.
Proof.
  destruct (@RodOperationWrapper_capture_failure Script.World Script.runtime
              "shots" 30 1%nat (Script.op (Some 5) (Some boom)) None
              (Script.start
                 (Script.mkWorld [] [] [] [] [] [inr (ErrNew "target closed")] []
                    "2024-05-01_12-00-00" true))
              {| world := Script.mkWorld [] [] [] [] []
                            [inr (ErrNew "target closed")] []
                            "2024-05-01_12-00-00" true;
                 trace := [EvTimeLimit 30000000000] |}
              boom (ErrNew "target closed")
              (Script.mkWorld [] [] [] [] [] [inr (ErrNew "target closed")] []
                 "2024-05-01_12-00-00" true)
              (Script.locating [])
              eq_refl eq_refl eq_refl) as (H & _).
  exact H.
Defined.

(** *** The two variants: when they succeed, what they ask for *)

(** X7. [SafeClick] returns nil exactly when its first attempt passes the
    stability wait and the click: the call then ends in the state that
    attempt leaves, so with one locate, one click and no delay.  No later
    attempt can make the call succeed. *)
Theorem SafeClick_succeeds_only_at_first_attempt {W : Type} {RT : Runtime W}
    (fuel : nat) (page : Page) (selector : string) (opts : option RodOptions)
    (s s' : State W) :
  SafeClick (S fuel) page selector opts s = Done None s' <->
  (0 <= RetryCount (or_default opts) /\
   SafeClick_body page selector (or_default opts) 0 None s = Done (Return None) s').
Proof.
  unfold SafeClick. split.
  - intros H. rewrite retry_loop_unfold in H.
    destruct (0 <=? RetryCount (or_default opts)) eqn:L; [|discriminate].
    apply Z.leb_le in L. split; [exact L|].
    destruct (SafeClick_body page selector (or_default opts) 0 None s)
      as [[l'|r] s1|s1|s1] eqn:E; try discriminate.
    + destruct l' as [x|].
      * destruct (retry_loop_sticky _ _ _
                    (fun j l s0 c s2 => SafeClick_body_sticky selector
                                          (or_default opts) page j l s0 c s2)
                    _ _ _ _ _ _ H) as (l2 & Hl2).
        discriminate.
      * exfalso. eapply SafeClick_body_continue_is_error; eauto.
    + inversion H; subst. reflexivity.
  - intros (Hr & Hb). now apply retry_loop_first_return.
Qed.

(** With the default policy and the element there, the call succeeds at the
    first attempt. *)
Lemma SafeClick_succeeds_only_at_first_attempt_witness :
  SafeClick 5 (Some 1%nat) "#go" None
    (Script.start (Script.locating [inl 4%nat]))
  = Done None
      {| world := Script.locating [];
         trace := [EvElement 1%nat "#go" 10000000000;
                   EvWaitStable 4%nat 200000000; EvClick 4%nat] |}.
Proof.
  apply (proj2 (@SafeClick_succeeds_only_at_first_attempt Script.World
                  Script.runtime 4%nat (Some 1%nat) "#go" None
                  (Script.start (Script.locating [inl 4%nat]))
                  {| world := Script.locating [];
                     trace := [EvElement 1%nat "#go" 10000000000;
                               EvWaitStable 4%nat 200000000; EvClick 4%nat] |})).
  split; [simpl; lia | reflexivity].
Defined.

(** X8. [SafeElement] returns a nil error exactly when its first attempt
    passes every enabled check; the element of that attempt is returned.
    In every other run the error returned is not nil. *)
Theorem SafeElement_clean_only_at_first_attempt {W : Type} {RT : Runtime W}
    (fuel : nat) (ph : PageHandle) (selector : string) (opts : option RodOptions)
    (s s' : State W) (r : option Element) :
  SafeElement (S fuel) (Some ph) selector opts s = Done (r, None) s' <->
  (0 <= RetryCount (or_default opts) /\
   exists el, r = Some el /\
     SafeElement_body (Some ph) selector (or_default opts) 0 None s
     = Done (Return (Some el, None)) s').
Proof.
  unfold SafeElement. split.
  - intros H. rewrite retry_loop_unfold in H.
    destruct (0 <=? RetryCount (or_default opts)) eqn:L; [|discriminate].
    apply Z.leb_le in L. split; [exact L|].
    destruct (SafeElement_body (Some ph) selector (or_default opts) 0 None s)
      as [[l'|r0] s1|s1|s1] eqn:E; try discriminate.
    + destruct l' as [x|].
      * exfalso.
        apply (retry_loop_from_error _ _ _
                 (fun res : option Element * option error => snd res <> None))
          in H; [apply H; reflexivity | | | ].
        -- intros j l s0 r1 s2 Hb.
           destruct (SafeElement_body_return_keeps_error _ _ _ _ _ _ _ _ Hb)
             as (Hs & _). rewrite Hs. discriminate.
        -- intros j l s0 l2 s2 Hb.
           eapply SafeElement_body_continue_is_error; eauto.
        -- intros l. discriminate.
      * exfalso. eapply SafeElement_body_continue_is_error; eauto.
    + inversion H; subst.
      destruct (SafeElement_body_return_keeps_error _ _ _ _ _ _ _ _ E)
        as (_ & Hne). simpl in Hne.
      destruct r as [el|]; [|congruence]. eauto.
  - intros (Hr & el & -> & Hb). now apply retry_loop_first_return.
Qed.

(** With the default policy and the element there, visible and stable. *)
Lemma SafeElement_clean_only_at_first_attempt_witness :
  SafeElement 5 (Some 1%nat) "#go" None
    (Script.start (Script.locating [inl 4%nat]))
  = Done (Some 4%nat, None)
      {| world := Script.locating [];
         trace := [EvElement 1%nat "#go" 10000000000; EvWaitVisible 4%nat;
                   EvWaitStable 4%nat 200000000] |}.
Proof.
  apply (proj2 (@SafeElement_clean_only_at_first_attempt Script.World
                  Script.runtime 4%nat 1%nat "#go" None
                  (Script.start (Script.locating [inl 4%nat]))
                  {| world := Script.locating [];
                     trace := [EvElement 1%nat "#go" 10000000000;
                               EvWaitVisible 4%nat;
                               EvWaitStable 4%nat 200000000] |}
                  (Some 4%nat))).
  split; [simpl; lia | exists 4%nat; split; reflexivity].
Defined.

(** X9. A negative retry count means no attempt at all: nothing is asked
    of the world, the page, nil or not, is not touched by [SafeClick], and
    the error returned wraps nil, so that its text ends in
    [%!w(<nil>)]. *)
Theorem negative_retry_count_makes_no_attempt {W : Type} {RT : Runtime W}
    (fuel : nat) (page : Page) (ph : PageHandle) (selector : string)
    (opts : RodOptions) (s : State W) :
  RetryCount opts < 0 ->
  SafeClick (S fuel) page selector (Some opts) s
    = Done (Some (ErrWrap "all click attempts failed" None)) s /\
  SafeElement (S fuel) (Some ph) selector (Some opts) s
    = Done (None, Some (ErrWrap "all attempts to get element failed" None)) s /\
  Error (ErrWrap "all click attempts failed" None)
    = "all click attempts failed: %!w(<nil>)" /\
  Unwrap (ErrWrap "all click attempts failed" None) = None.
Proof.
  intros Hneg. unfold SafeClick, SafeElement, or_default.
  repeat rewrite retry_loop_unfold.
  destruct (0 <=? RetryCount opts) eqn:L; [apply Z.leb_le in L; lia|].
  repeat split.
Qed.

(** A retry count of -1, with a nil page for [SafeClick]. *)
Lemma negative_retry_count_makes_no_attempt_witness :
  SafeClick 3 None "#go" (Some (mkRodOptions 5 7 (-1) 9 true true true))
    (Script.start (Script.locating [inl 4%nat]))
  = Done (Some (ErrWrap "all click attempts failed" None))
      (Script.start (Script.locating [inl 4%nat])).
Proof.
  destruct (@negative_retry_count_makes_no_attempt Script.World Script.runtime
              2%nat None 1%nat "#go" (mkRodOptions 5 7 (-1) 9 true true true)
              (Script.start (Script.locating [inl 4%nat]))) as (H & _).
  - simpl. lia.
  - exact H.
Defined.

(** X10. When every attempt of a call fails, with [0 <= retryCount = N]
    below the largest [int]: the first attempt starts with its locate;
    every later attempt starts with one delay of [retryDelay], directly
    followed by its locate; no attempt sleeps or locates anywhere else;
    so the call sleeps exactly [N] times.  This holds of [SafeClick] and
    of [SafeElement], each along its own run: attempt [i] starts in
    [st i], fails with [er i] and leaves [st (i + 1)]. *)
Theorem exhaustion_delays {W : Type} {RT : Runtime W}
    (ph : PageHandle) (selector : string) (opts : RodOptions)
    (fuel : nat) (st : Z -> State W) (er : Z -> error) :
  0 <= RetryCount opts < Int64.max_int ->
  (Z.to_nat (RetryCount opts) + 2 <= fuel)%nat ->
  let starts_with_delay_then_locate :=
    forall i, 0 <= i <= RetryCount opts ->
      exists rest,
        trace (st (i + 1))
        = (trace (st i)
           ++ (if 0 <? i then [EvSleep (RetryDelay opts)] else [])
           ++ EvElement ph selector (Timeout opts) :: rest)%list /\
        Forall (fun ev => is_sleep ev = false /\ is_locate ev = false) rest in
  ((forall i, 0 <= i <= RetryCount opts ->
      SafeClick_body (Some ph) selector opts i None (st i)
      = Done (Continue (Some (er i))) (st (i + 1))) ->
   final_state (SafeClick fuel (Some ph) selector (Some opts) (st 0))
   = st (RetryCount opts + 1) /\
   starts_with_delay_then_locate /\
   count is_sleep (trace (st (RetryCount opts + 1)))
   = count is_sleep (trace (st 0)) + RetryCount opts) /\
  ((forall i, 0 <= i <= RetryCount opts ->
      SafeElement_body (Some ph) selector opts i None (st i)
      = Done (Continue (Some (er i))) (st (i + 1))) ->
   final_state (SafeElement fuel (Some ph) selector (Some opts) (st 0))
   = st (RetryCount opts + 1) /\
   starts_with_delay_then_locate /\
   count is_sleep (trace (st (RetryCount opts + 1)))
   = count is_sleep (trace (st 0)) + RetryCount opts).
Proof.
  intros Hr Hf shape. subst shape. split; intros Hrun; (split; [|split]).
  - rewrite (SafeClick_run ph selector opts Hr st er fuel Hf Hrun). reflexivity.
  - intros i Hi. eapply SafeClick_body_shape. apply (Hrun i Hi).
  - apply (run_advances_after_first (RetryCount opts) st
             (fun s0 => count is_sleep (trace s0))); [lia|].
    intros i Hi. eapply SafeClick_body_delays. apply (Hrun i Hi).
  - rewrite (SafeElement_run ph selector opts Hr st er fuel Hf Hrun). reflexivity.
  - intros i Hi. eapply SafeElement_body_shape. apply (Hrun i Hi).
  - apply (run_advances_after_first (RetryCount opts) st
             (fun s0 => count is_sleep (trace s0))); [lia|].
    intros i Hi. eapply SafeElement_body_delays. apply (Hrun i Hi).
Qed.

(** One retry, the locate failing twice: one delay, between the two
    locates. *)
Lemma exhaustion_delays_witness :
  let once := mkRodOptions 5 7 1 9 true true true in
  let absent := Script.locating [inr (ErrNew "first"); inr (ErrNew "second")] in
  final_state (SafeClick 3 (Some 1%nat) "#go" (Some once) (Script.start absent))
  = {| world := Script.locating [];
       trace := [EvElement 1%nat "#go" 5; EvSleep 9; EvElement 1%nat "#go" 5] |} /\
  count is_sleep [EvElement 1%nat "#go" 5; EvSleep 9; EvElement 1%nat "#go" 5] = 1.
Proof.
  intros once absent.
  pose (st1 := fun i : Z =>
          if i =? 0 then Script.start absent
          else if i =? 1
               then {| world := Script.locating [inr (ErrNew "second")];
                       trace := [EvElement 1%nat "#go" 5] |}
               else {| world := Script.locating [];
                       trace := [EvElement 1%nat "#go" 5; EvSleep 9;
                                 EvElement 1%nat "#go" 5] |}).
  pose (er1 := fun i : Z =>
          if i =? 0 then ErrWrap "element not found" (Some (ErrNew "first"))
          else ErrWrap "element not found" (Some (ErrNew "second"))).
  assert (Hrange : 0 <= RetryCount once < Int64.max_int)
    by (unfold Int64.max_int; simpl; lia).
  assert (Hfuel : (Z.to_nat (RetryCount once) + 2 <= 3)%nat) by (simpl; lia).
  destruct (@exhaustion_delays Script.World Script.runtime
              1%nat "#go" once 3%nat st1 er1 Hrange Hfuel) as (Hc & _).
  destruct Hc as (Hfinal & _ & Hcount).
  - intros i Hi. assert (i = 0 \/ i = 1) as [-> | ->] by (simpl in Hi; lia);
      reflexivity.
  - split; [exact Hfinal | exact Hcount].
Defined.

(** X11. Whatever the world answers and however the call ends,
    [SafeElement] asks only for delays of [retryDelay], locates of the
    given selector on the given page under [timeout], visibility waits
    when [mustVisible] is set and stability waits of [stableDuration] when
    [mustStable] is set: it never clicks.  [SafeClick] asks only for such
    delays and locates, stability waits of [stableDuration] and clicks.
    Neither touches the file system or takes a screenshot. *)
Theorem variants_ask_only_for_their_steps {W : Type} {RT : Runtime W}
    (ph : PageHandle) (selector : string) (opts : RodOptions)
    (fuel : nat) (s : State W) :
  extends_with (SafeElement_event ph selector opts) s
    (final_state (SafeElement fuel (Some ph) selector (Some opts) s)) /\
  extends_with (SafeClick_event ph selector opts) s
    (final_state (SafeClick fuel (Some ph) selector (Some opts) s)).
Proof.
  unfold SafeElement, SafeClick, or_default. split.
  - apply retry_loop_trace. intros. apply SafeElement_body_events.
  - apply retry_loop_trace. intros. apply SafeClick_body_events.
Qed.

(** ** The pass-through helpers *)

Section HelperFacts.
Context {W F : Type} {RT : Runtime W} {DV : Driver W F}.

(** X12. Every helper checks its target first: with a nil page or a nil
    element it returns the nil-target error, no value, and asks nothing of
    the driver. *)
Theorem helpers_refuse_nil_target (DefaultStableDuration : Time.Duration)
    (selector url txt name : string) (duration : option Time.Duration)
    (s : Session W F) :
  Navigate None url s = ((None, Some (ErrNew "rod.Page is nil")), s) /\
  PageElement None selector s = ((None, Some (ErrNew "rod.Page is nil")), s) /\
  PageElementVisible None selector s = ((None, Some (ErrNew "rod.Page is nil")), s) /\
  PageElements None selector s = (([], Some (ErrNew "rod.Page is nil")), s) /\
  ScrollToBottom None s = (Some (ErrNew "rod.Page is nil"), s) /\
  El.Element None selector s = ((None, Some (ErrNew "rod.Element is nil")), s) /\
  El.ElementVisible None selector s = ((None, Some (ErrNew "rod.Element is nil")), s) /\
  El.ElementStable DefaultStableDuration None selector duration s
    = ((None, Some (ErrNew "rod.Element is nil")), s) /\
  El.ElementText None selector s = ((None, Some (ErrNew "rod.Element is nil")), s) /\
  El.Elements None selector s = (([], Some (ErrNew "rod.Element is nil")), s) /\
  El.Click None s = (Some (ErrNew "rod.Element is nil"), s) /\
  El.ClickAndLoad None s = (Some (ErrNew "rod.Element is nil"), s) /\
  El.Input None txt s = (Some (ErrNew "rod.Element is nil"), s) /\
  El.Attribute None name s = ((None, Some (ErrNew "rod.Element is nil")), s).
Proof. repeat split. Qed.

(** X13. When [Has] does not report the element, [PageElementVisible] and
    [PageElements] stop there: one driver call, no lookup, no wait, and
    the error "element not found" with the selector and the driver's
    error, [<nil>] when there is none. *)
Theorem page_lookups_stop_when_absent (ph : PageHandle) (selector : string)
    (s : Session W F) (a : HasAnswer) (w1 : W) :
  dv_PageHas ph selector (sworld s) = (a, w1) ->
  has_ok a = false ->
  let s1 := {| sworld := w1; calls := calls s ++ [CallPageHas ph selector] |} in
  let err := ErrNew ("element not found: " ++ selector ++ nl ++ fmt_v (has_err a)) in
  PageElementVisible (Some ph) selector s = ((None, Some err), s1) /\
  PageElements (Some ph) selector s = (([], Some err), s1).
Proof.
  intros Hh Hok s1 err. unfold PageElementVisible, PageElements, call.
  rewrite Hh, Hok. split; reflexivity.
Qed.

(** X14. An element that [PageElementVisible] returns is the one the
    lookup gave and the one whose visibility was waited for, after a [Has]
    that found a match: exactly these three driver calls were made. *)
Theorem PageElementVisible_success (ph : PageHandle) (selector : string)
    (s s' : Session W F) (el : ElementRef) (err : option error) :
  PageElementVisible (Some ph) selector s = ((Some el, err), s') ->
  err = None /\
  calls s' = (calls s ++ [CallPageHas ph selector; CallPageElement ph selector;
                          CallWaitVisible el])%list /\
  exists w1 w2,
    has_ok (fst (dv_PageHas ph selector (sworld s))) = true /\
    w1 = snd (dv_PageHas ph selector (sworld s)) /\
    dv_PageElement ph selector w1 = (inl el, w2) /\
    rt_WaitVisible el w2 = (None, sworld s').
Proof.
  unfold PageElementVisible, call. intros H.
  destruct (dv_PageHas ph selector (sworld s)) as [a w1] eqn:Hh.
  destruct a as [e| |x]; simpl in H; try discriminate.
  destruct (dv_PageElement ph selector w1) as [[elem|e] w2] eqn:He;
    simpl in H; try discriminate.
  destruct (rt_WaitVisible elem w2) as [[e|] w3] eqn:Hv; simpl in H;
    try discriminate.
  inversion H; subst. simpl. split; [reflexivity|]. split.
  - repeat rewrite <- app_assoc. reflexivity.
  - exists w1, w2. repeat split; assumption.
Qed.

(** X15. The lookups return a value or an error, never both and never
    neither: the value is nil exactly when the error is not. *)
Theorem lookups_value_xor_error (DefaultStableDuration : Time.Duration)
    (p : Page) (e : ElementPtr) (selector url : string)
    (duration : option Time.Duration) (s : Session W F) :
  value_xor_error (fst (Navigate p url s)) /\
  value_xor_error (fst (PageElement p selector s)) /\
  value_xor_error (fst (PageElementVisible p selector s)) /\
  value_xor_error (fst (El.Element e selector s)) /\
  value_xor_error (fst (El.ElementVisible e selector s)) /\
  value_xor_error (fst (El.ElementStable DefaultStableDuration e selector duration s)) /\
  value_xor_error (fst (El.ElementText e selector s)).
Proof.
  unfold value_xor_error, Navigate, PageElement, PageElementVisible, El.Element,
    El.ElementVisible, El.ElementStable, El.ElementText.
  repeat split; destruct p; destruct e; open_helper;
    intros; congruence.
Qed.


End HelperFacts.

(** The page [shop] has no [#pay]. *)
Lemma page_lookups_stop_when_absent_witness :
  PageElementVisible (Some 1%nat) "#pay" (Fake.open Fake.shop)
  = ((None, Some (ErrNew ("element not found: #pay" ++ nl ++ "<nil>"))),
     {| sworld := Fake.shop; calls := [CallPageHas 1%nat "#pay"] |}) /\
  PageElements (Some 1%nat) "#pay" (Fake.open Fake.shop)
  = (([], Some (ErrNew ("element not found: #pay" ++ nl ++ "<nil>"))),
     {| sworld := Fake.shop; calls := [CallPageHas 1%nat "#pay"] |}).
Proof.
  apply (@page_lookups_stop_when_absent Fake.Dom Z Fake.runtime Fake.driver
           1%nat "#pay" (Fake.open Fake.shop) HasAbsent Fake.shop);
    reflexivity.
Defined.

(** The button [#buy] of [shop]. *)
Lemma PageElementVisible_success_witness :
  PageElementVisible (Some 1%nat) "#buy" (Fake.open Fake.shop)
  = ((Some 3%nat, None),
     {| sworld := Fake.shop;
        calls := [CallPageHas 1%nat "#buy"; CallPageElement 1%nat "#buy";
                  CallWaitVisible 3%nat] |}) /\
  rt_WaitVisible 3%nat Fake.shop = (None, Fake.shop).
Proof.
  split; [reflexivity|].
  destruct (@PageElementVisible_success Fake.Dom Z Fake.runtime Fake.driver
              1%nat "#buy" (Fake.open Fake.shop)
              {| sworld := Fake.shop;
                 calls := [CallPageHas 1%nat "#buy"; CallPageElement 1%nat "#buy";
                           CallWaitVisible 3%nat] |}
              3%nat None eq_refl) as (_ & _ & w1 & w2 & _ & Hw & He & Hv).
  simpl in Hw. subst w1. inversion He; subst. exact Hv.
Defined.

Section MoreHelperFacts.
Context {W F : Type} {RT : Runtime W} {DV : Driver W F}.

(** X17. [Click] clicks, and [Input] types, only after the element has
    been waited for and found ready.  When that wait fails nothing else is
    asked of the driver, and the error is a fixed text that leaves the
    driver's error out; a call that returns nil has made the wait and the
    action, in this order, and nothing else. *)
Theorem act_only_when_ready (eh : ElementRef) (txt : string) (s : Session W F) :
  let c := El.Click (Some eh) s in
  let i := El.Input (Some eh) txt s in
  (fst (dv_WaitEnabled eh (sworld s)) <> None ->
   c = (Some (ErrNew "failed to wait for element to be enabled"),
        {| sworld := snd (dv_WaitEnabled eh (sworld s));
           calls := calls s ++ [CallWaitEnabled eh] |})) /\
  (fst c = None ->
   calls (snd c) = (calls s ++ [CallWaitEnabled eh; CallClick eh])%list) /\
  (fst (dv_WaitWritable eh (sworld s)) <> None ->
   i = (Some (ErrNew "failed to wait for element to be writable"),
        {| sworld := snd (dv_WaitWritable eh (sworld s));
           calls := calls s ++ [CallWaitWritable eh] |})) /\
  (fst i = None ->
   calls (snd i) = (calls s ++ [CallWaitWritable eh; CallInput eh txt])%list).
Proof.
  intros c i. subst c i. unfold El.Click, El.Input.
  repeat split; open_helper; intros; try congruence;
    repeat rewrite <- app_assoc; reflexivity.
Qed.

(** X18. [ClickAndLoad] is [Click] followed by one wait for the page
    load: when [Click] fails its error and its session are returned as
    they are and no load is waited for; when it succeeds exactly one more
    call, the wait, is made; and a nil result means wait, click and load
    wait, in this order. *)
Theorem ClickAndLoad_is_Click_then_load (eh : ElementRef) (s : Session W F) :
  let c := El.Click (Some eh) s in
  let r := El.ClickAndLoad (Some eh) s in
  (fst c <> None -> r = c) /\
  (fst c = None -> calls (snd r) = (calls (snd c) ++ [CallWaitLoad eh])%list) /\
  (fst r = None ->
   calls (snd r)
   = (calls s ++ [CallWaitEnabled eh; CallClick eh; CallWaitLoad eh])%list).
Proof.
  intros c r. subst c r. unfold El.ClickAndLoad, El.Click.
  repeat split; open_helper; intros; try congruence;
    repeat rewrite <- app_assoc; reflexivity.
Qed.

(** X19. The four lookups under an element agree.  When [Element] fails,
    [ElementVisible], [ElementStable] and [ElementText] fail with the same
    error after the same single call; an element that [ElementVisible] or
    [ElementStable] returns is the one that [Element] returns. *)
Theorem element_lookups_agree (DefaultStableDuration : Time.Duration)
    (eh : ElementRef) (selector : string) (duration : option Time.Duration)
    (s : Session W F) :
  let r := El.Element (Some eh) selector s in
  (snd (fst r) <> None ->
   El.ElementVisible (Some eh) selector s = r /\
   El.ElementStable DefaultStableDuration (Some eh) selector duration s = r /\
   El.ElementText (Some eh) selector s = ((None, snd (fst r)), snd r)) /\
  (forall el,
     fst (fst (El.ElementVisible (Some eh) selector s)) = Some el ->
     fst (fst r) = Some el) /\
  (forall el,
     fst (fst (El.ElementStable DefaultStableDuration (Some eh) selector duration s))
     = Some el ->
     fst (fst r) = Some el).
Proof.
  intros r. subst r.
  unfold El.Element, El.ElementVisible, El.ElementStable, El.ElementText.
  repeat split; open_helper; intros; congruence.
Qed.

(** X20. A [ScrollToBottom] that returns nil has scrolled by nothing,
    read the height of the document, and scrolled down by that height:
    three driver calls, the last with the number the evaluation gave. *)
Theorem ScrollToBottom_success (ph : PageHandle) (s : Session W F) :
  fst (ScrollToBottom (Some ph) s) = None ->
  exists h w1 w2,
    dv_Scroll ph dv_zero dv_zero 0 (sworld s) = (None, w1) /\
    dv_Eval ph scrollHeight_js w1 = (inl h, w2) /\
    dv_Scroll ph dv_zero h 0 w2 = (None, sworld (snd (ScrollToBottom (Some ph) s))) /\
    calls (snd (ScrollToBottom (Some ph) s))
    = (calls s ++ [CallScroll ph dv_zero dv_zero 0;
                   CallEval ph scrollHeight_js;
                   CallScroll ph dv_zero h 0])%list.
Proof.
  unfold ScrollToBottom, call.
  destruct (dv_Scroll ph dv_zero dv_zero 0 (sworld s)) as [[e|] w1] eqn:H1;
    simpl; [discriminate|].
  destruct (dv_Eval ph scrollHeight_js w1) as [[h|e] w2] eqn:H2;
    simpl; [|discriminate].
  destruct (dv_Scroll ph dv_zero h 0 w2) as [[e|] w3] eqn:H3;
    simpl; [discriminate|].
  intros _. exists h, w1, w2. repeat split; try assumption.
  repeat rewrite <- app_assoc. reflexivity.
Qed.

(** X21. [Attribute] reports an error exactly when the driver does.  An
    attribute that the element does not have, a nil value without an
    error, comes back as nil without an error. *)
Theorem Attribute_passes_nil_value (eh : ElementRef) (name : string)
    (s : Session W F) :
  let r := fst (El.Attribute (Some eh) name s) in
  (snd r = None <-> exists v, fst (dv_Attribute eh name (sworld s)) = inl v) /\
  (fst (dv_Attribute eh name (sworld s)) = inl None -> r = (None, None)).
Proof.
  intros r. subst r. unfold El.Attribute, call.
  destruct (dv_Attribute eh name (sworld s)) as [[v|e] w1]; simpl.
  - split; [split; eauto | intros H; inversion H; reflexivity].
  - split; [split; [discriminate | intros (v & H); discriminate] | discriminate].
Qed.

(** X22. The errors of the helpers are texts: the driver's error is put
    into the message with [%v], or left out, and never wrapped, so
    [errors.Unwrap] of a helper's error is nil. *)
Theorem helper_errors_are_plain (DefaultStableDuration : Time.Duration)
    (p : Page) (e : ElementPtr) (selector url txt name : string)
    (duration : option Time.Duration) (s : Session W F) :
  plain (snd (fst (Navigate p url s))) /\
  plain (snd (fst (PageElement p selector s))) /\
  plain (snd (fst (PageElementVisible p selector s))) /\
  plain (snd (fst (PageElements p selector s))) /\
  plain (snd (fst (El.Element e selector s))) /\
  plain (snd (fst (El.ElementVisible e selector s))) /\
  plain (snd (fst (El.ElementStable DefaultStableDuration e selector duration s))) /\
  plain (snd (fst (El.ElementText e selector s))) /\
  plain (snd (fst (El.Elements e selector s))) /\
  plain (fst (El.Click e s)) /\
  plain (fst (El.ClickAndLoad e s)) /\
  plain (fst (El.Input e txt s)) /\
  plain (snd (fst (El.Attribute e name s))).
Proof.
  unfold Navigate, PageElement, PageElementVisible, PageElements, El.Element,
    El.ElementVisible, El.ElementStable, El.ElementText, El.Elements,
    El.ClickAndLoad, El.Click, El.Input, El.Attribute.
  repeat split; destruct p; destruct e; open_helper; exact I || reflexivity.
Qed.

End MoreHelperFacts.

(** Element 8 of [shop] is not ready, element 3 is. *)
Lemma act_only_when_ready_witness :
  El.Click (Some 8%nat) (Fake.open Fake.shop)
  = (Some (ErrNew "failed to wait for element to be enabled"),
     {| sworld := Fake.shop; calls := [CallWaitEnabled 8%nat] |}) /\
  calls (snd (El.Click (Some 3%nat) (Fake.open Fake.shop)))
  = [CallWaitEnabled 3%nat; CallClick 3%nat].
Proof.
  split.
  - apply (proj1 (@act_only_when_ready Fake.Dom Z Fake.runtime Fake.driver
                    8%nat "x" (Fake.open Fake.shop))).
    discriminate.
  - apply (proj1 (proj2 (@act_only_when_ready Fake.Dom Z Fake.runtime Fake.driver
                           3%nat "x" (Fake.open Fake.shop)))).
    reflexivity.
Defined.

(** Element 3 of [shop]. *)
Lemma ClickAndLoad_is_Click_then_load_witness :
  calls (snd (El.ClickAndLoad (Some 3%nat) (Fake.open Fake.shop)))
  = [CallWaitEnabled 3%nat; CallClick 3%nat; CallWaitLoad 3%nat].
Proof.
  apply (proj2 (proj2 (@ClickAndLoad_is_Click_then_load Fake.Dom Z Fake.runtime
                         Fake.driver 3%nat (Fake.open Fake.shop)))).
  reflexivity.
Defined.

(** [shop] has no [#pay] under element 3. *)
Lemma element_lookups_agree_witness :
  El.ElementVisible (Some 3%nat) "#pay" (Fake.open Fake.shop)
  = ((None, Some (ErrNew "element not found: #pay")),
     {| sworld := Fake.shop; calls := [CallHas 3%nat "#pay"] |}).
Proof.
  destruct (@element_lookups_agree Fake.Dom Z Fake.runtime Fake.driver 200000000
              3%nat "#pay" None (Fake.open Fake.shop)) as (H & _).
  destruct H as (Hv & _); [discriminate|].
  exact Hv.
Defined.

(** [shop] is 2400 high. *)
Lemma ScrollToBottom_success_witness :
  calls (snd (ScrollToBottom (Some 1%nat) (Fake.open Fake.shop)))
  = [CallScroll 1%nat 0 0 0; CallEval 1%nat scrollHeight_js;
     CallScroll 1%nat 0 2400 0].
Proof.
  destruct (@ScrollToBottom_success Fake.Dom Z Fake.driver
              1%nat (Fake.open Fake.shop) eq_refl)
    as (h & w1 & w2 & Hs & He & _ & Hc).
  inversion Hs; subst. inversion He; subst. exact Hc.
Defined.

(** The elements of [shop] have no attributes. *)
Lemma Attribute_passes_nil_value_witness :
  fst (El.Attribute (Some 3%nat) "href" (Fake.open Fake.shop)) = (None, None).
Proof.
  apply (proj2 (@Attribute_passes_nil_value Fake.Dom Z Fake.driver
                  3%nat "href" (Fake.open Fake.shop))).
  reflexivity.
Defined.
